(** * Smart-agent receiver: SignalFx event to pdata log record

    A shallow embedding of
    [internal/receiver/smartagentreceiver/converter/event.go]
    ([sfxEventToPDataLogs] and [newLogs]) together with the parts of the Go
    runtime and of the libraries the function calls into: fixed-width integer
    conversions, [float32] to [float64] conversion, [time.Time],
    [fmt.Sprintf("%v", _)], the [zap] logger and the [pcommon.Map] attribute
    collection of the collector's pdata package. *)

From Stdlib Require Import ZArith NArith String List Lia SpecFloat.
From Stdlib Require Import DecimalString DecimalN DecimalPos.
From stdpp Require Import gmap strings list fin_maps.

Local Open Scope Z_scope.
#[local] Set Warnings "-register-all".

(** ** Go fixed-width integers

    A [w]-bit integer is a [Z]; a conversion to a [w]-bit type keeps the low
    [w] bits (two's complement), as the Go specification prescribes. *)
Module GoInt.

Definition wrap_unsigned (w : Z) (z : Z) : Z := z mod 2 ^ w.

Definition wrap_signed (w : Z) (z : Z) : Z :=
  (z + 2 ^ (w - 1)) mod 2 ^ w - 2 ^ (w - 1).

Definition in_signed (w : Z) (z : Z) : Prop :=
  - 2 ^ (w - 1) <= z < 2 ^ (w - 1).

(** [int64(v)] and [uint64(v)]. *)
Definition int64 (z : Z) : Z := wrap_signed 64 z.
Definition uint64 (z : Z) : Z := wrap_unsigned 64 z.

End GoInt.

(** ** Go floating point

    A [float32] is a [spec_float] valid for precision 24 and [emax] 128, a
    [float64] one valid for precision 53 and [emax] 1024.  The conversion
    [float64(v)] of a [float32] rounds the number into the binary64 format
    (to nearest, ties to even); NaN, infinities and signed zeros carry over. *)
Module GoFloat.

Definition is_float32 (f : spec_float) : Prop := valid_binary 24 128 f = true.
Definition is_float64 (f : spec_float) : Prop := valid_binary 53 1024 f = true.

Definition float64_of_float32 (f : spec_float) : spec_float :=
  match f with
  | S754_finite s m e => binary_round 53 1024 s m e
  | _ => f
  end.

(** Two floats denote the same number: same class and sign, and for finite
    ones [m * 2^e = m' * 2^e'], compared after aligning both mantissas on
    the smaller exponent. *)
Definition same_number (f g : spec_float) : Prop :=
  match f, g with
  | S754_zero s, S754_zero s' => s = s'
  | S754_infinity s, S754_infinity s' => s = s'
  | S754_nan, S754_nan => True
  | S754_finite s m e, S754_finite s' m' e' =>
      s = s' /\
      Z.pos m * 2 ^ (e - Z.min e e') = Z.pos m' * 2 ^ (e' - Z.min e e')
  | _, _ => False
  end.

End GoFloat.

(** ** [time.Time]

    An instant is held as the seconds elapsed since January 1, year 1,
    00:00:00 UTC (what [t.sec()] returns) and the nanoseconds within that
    second (what [t.nsec()] returns, in [0, 999999999]). *)
Module time.

Record Time : Type := mkTime { sec : Z; nsec : Z }.

Definition secondsPerDay : Z := 86400.

Definition unixToInternal : Z :=
  (1969 * 365 + 1969 / 4 - 1969 / 100 + 1969 / 400) * secondsPerDay.

Definition internalToUnix : Z := - unixToInternal.

(** The zero value of [Time]. *)
Definition zero : Time := mkTime 0 0.

(** [time.Unix(s, 0)], with the nanosecond part [n] added. *)
Definition Unix (s n : Z) : Time := mkTime (s + unixToInternal) n.

(** [func (t Time) IsZero() bool { return t.sec() == 0 && t.nsec() == 0 }] *)
Definition IsZero (t : Time) : bool := (sec t =? 0) && (nsec t =? 0).

(** [func (t Time) unixSec() int64 { return t.sec() + internalToUnix }] *)
Definition unixSec (t : Time) : Z := GoInt.int64 (sec t + internalToUnix).

(** [func (t Time) UnixNano() int64 { return (t.unixSec())*1e9 + int64(t.nsec()) }] *)
Definition UnixNano (t : Time) : Z :=
  GoInt.int64 (unixSec t * 1000000000 + nsec t).

(** The instant lies in the years an [int64] of nanoseconds since the Unix
    epoch can hold, and not before the epoch. *)
Definition representable (t : Time) : Prop :=
  0 <= nsec t < 1000000000 /\
  0 <= (sec t - unixToInternal) * 1000000000 + nsec t < 2 ^ 63.

End time.

(** ** Dynamically typed values: [interface{}]

    The value stored under a property key is the nil interface or a value
    with a dynamic type.  The types the converter inspects have a
    constructor each; the remaining types are gathered in [other]. *)
Module dyn.

(** Dynamic types the type switch has no case for: the unsigned integers,
    and anything else (struct, slice, map, pointer, ...), held with the
    text [fmt] prints for it under the verb [%v]. *)
Inductive other : Type :=
| Uint (v : N)
| Uint8 (v : N)
| Uint16 (v : N)
| Uint32 (v : N)
| Uint64 (v : N)
| Uintptr (v : N)
| Opaque (rendering : string).

Inductive any : Type :=
| Nil
| String_ (v : string)
| Bool (v : bool)
| Int (v : Z)
| Int8 (v : Z)
| Int16 (v : Z)
| Int32 (v : Z)
| Int64 (v : Z)
| Float32 (v : spec_float)
| Float64 (v : spec_float)
| Other (v : other).

(** The payload is a value of its Go type. *)
Definition well_typed (a : any) : Prop :=
  match a with
  | Int v | Int64 v => GoInt.in_signed 64 v
  | Int8 v => GoInt.in_signed 8 v
  | Int16 v => GoInt.in_signed 16 v
  | Int32 v => GoInt.in_signed 32 v
  | Float32 v => GoFloat.is_float32 v
  | Float64 v => GoFloat.is_float64 v
  | Other (Uint v) | Other (Uint64 v) | Other (Uintptr v) => (v < 2 ^ 64)%N
  | Other (Uint8 v) => (v < 2 ^ 8)%N
  | Other (Uint16 v) => (v < 2 ^ 16)%N
  | Other (Uint32 v) => (v < 2 ^ 32)%N
  | _ => True
  end.

Definition is_unsigned (a : any) : option N :=
  match a with
  | Other (Uint v) | Other (Uint8 v) | Other (Uint16 v)
  | Other (Uint32 v) | Other (Uint64 v) | Other (Uintptr v) => Some v
  | _ => None
  end.

End dyn.

(** ** [fmt] *)
Module fmt.
Import dyn.

(** Base-10 text of an unsigned integer ([strconv.FormatUint(v, 10)]). *)
Definition FormatUint (v : N) : string := NilZero.string_of_uint (N.to_uint v).

(** Reading a base-10 text back. *)
Definition ParseUint (s : string) : option N :=
  option_map N.of_uint (NilZero.uint_of_string s).

(** [fmt.Sprintf("%v", value)] on the dynamic types of [other]: unsigned
    integers of every width print in base 10. *)
Definition Sprintf_v (value : other) : string :=
  match value with
  | Uint v | Uint8 v | Uint16 v | Uint32 v | Uint64 v | Uintptr v => FormatUint v
  | Opaque rendering => rendering
  end.

End fmt.

(** ** [zap]: the logger as the sequence of entries written to it *)
Module zap.

Inductive Level : Type :=
| DebugLevel | InfoLevel | WarnLevel | ErrorLevel.

(** [zap.String(key, val)] *)
Record Field : Type := String_ { Key : string; Val : string }.

Record Entry : Type :=
  mkEntry { EntryLevel : Level; Message : string; Fields : list Field }.

(** Entries written so far, oldest first. *)
Definition Logger : Type := list Entry.

(** [logger.Debug(msg, fields...)] *)
Definition Debug (logger : Logger) (msg : string) (fields : list Field) : Logger :=
  logger ++ [mkEntry DebugLevel msg fields].

End zap.

(** ** [pcommon]: attribute values and the attribute map

    A [pcommon.Map] is a slice of key/value pairs.  [Get] scans it from the
    front.  The [Insert] family adds the pair when the key does not exist and
    applies no action to the map where the key already exists (the upsert
    behaviour belongs to the separate [Upsert] family, which the converter
    does not call). *)
Module pcommon.

Inductive Value : Type :=
| ValueEmpty
| ValueString (v : string)
| ValueInt (v : Z)
| ValueDouble (v : spec_float)
| ValueBool (v : bool)
| ValueMap (m : list (string * Value)).

Definition Map : Type := list (string * Value).

(** [pcommon.Timestamp] is a [uint64] of nanoseconds since the Unix epoch. *)
Definition Timestamp (unixNano : Z) : Z := GoInt.uint64 unixNano.

Definition NewMap : Map := [].

(** [pcommon.NewValueMap()] and [Value.MapVal()] *)
Definition NewValueMap : Value := ValueMap [].

Definition MapVal (v : Value) : Map :=
  match v with
  | ValueMap m => m
  | _ => []
  end.

(** [Clear] drops every pair; [EnsureCapacity] only reallocates. *)
Definition Clear (m : Map) : Map := [].
Definition EnsureCapacity (capacity : Z) (m : Map) : Map := m.

(** [Get] returns the value of the first pair whose key is [key]. *)
Fixpoint Get (key : string) (m : Map) : option Value :=
  match m with
  | [] => None
  | (k, v) :: rest => if String.eqb k key then Some v else Get key rest
  end.

(** [Insert] "adds the Value to the map when the key does not exist.  No
    action is applied to the map where the key already exists": it appends
    the pair when [Get] finds none.  [InsertNull], [InsertString],
    [InsertInt], [InsertDouble] and [InsertBool] do the same for a value of
    their kind. *)
Definition Insert (k : string) (v : Value) (m : Map) : Map :=
  match Get k m with
  | Some _ => m
  | None => m ++ [(k, v)]
  end.

Definition InsertNull (k : string) (m : Map) : Map := Insert k ValueEmpty m.
Definition InsertString (k v : string) (m : Map) : Map := Insert k (ValueString v) m.
Definition InsertInt (k : string) (v : Z) (m : Map) : Map := Insert k (ValueInt v) m.
Definition InsertDouble (k : string) (v : spec_float) (m : Map) : Map :=
  Insert k (ValueDouble v) m.
Definition InsertBool (k : string) (v : bool) (m : Map) : Map := Insert k (ValueBool v) m.

(** Number of pairs stored under [key]. *)
Definition occurrences (key : string) (m : Map) : nat :=
  List.length (List.filter (fun kv => String.eqb (fst kv) key) m).

End pcommon.

(** ** [plog]: the log container *)
Module plog.

Record LogRecord : Type :=
  mkLogRecord { Timestamp : Z; Attributes : pcommon.Map }.

Record ScopeLogs : Type := mkScopeLogs { LogRecords : list LogRecord }.
Record ResourceLogs : Type := mkResourceLogs { ScopeLogsSlice : list ScopeLogs }.
Record Logs : Type := mkLogs { ResourceLogsSlice : list ResourceLogs }.

Definition NewLogs : Logs := mkLogs [].
Definition NewLogRecord : LogRecord := mkLogRecord 0 pcommon.NewMap.

Definition SetTimestamp (ts : Z) (lr : LogRecord) : LogRecord :=
  mkLogRecord ts (Attributes lr).

Definition SetAttributes (attrs : pcommon.Map) (lr : LogRecord) : LogRecord :=
  mkLogRecord (Timestamp lr) attrs.

(** Every log record held by the container, in order. *)
Definition records (ld : Logs) : list LogRecord :=
  List.flat_map (fun rl => List.flat_map LogRecords (ScopeLogsSlice rl))
    (ResourceLogsSlice ld).

End plog.

(** ** [event.Event] of the SignalFx library

    [Category] is an [int32]; the two Go maps are finite maps with unique
    keys, a nil map being the empty one. *)
Module event.

Record Event : Type :=
  mkEvent {
    EventType : string;
    Category : Z;
    Dimensions : gmap string string;
    Properties : gmap string dyn.any;
    Timestamp : time.Time
  }.

Definition well_formed (e : Event) : Prop :=
  GoInt.in_signed 32 (Category e) /\
  forall k a, Properties e !! k = Some a -> dyn.well_typed a.

End event.

(** ** The converter *)
Module converter.
Import pcommon.

(** SFxEventCategoryKey key for splunk event category, *)
Definition SFxEventCategoryKey : string := "com.splunk.signalfx.event_category".
(** SFxEventPropertiesKey key for splunk event properties. *)
Definition SFxEventPropertiesKey : string := "com.splunk.signalfx.event_properties".
(** SFxEventType key for splunk event type *)
Definition SFxEventType : string := "com.splunk.signalfx.event_type".

(** [for k, v := range m] visits every pair of the map once, in an order
    the language leaves open: [order] is one such visit of [m]. *)
Definition ranges_over {V : Type} (order : list (string * V)) (m : gmap string V) : Prop :=
  order ≡ₚ map_to_list m.

(** [newLogs]: a container with one resource, one scope and one record;
    [lr] designates that record, so the container returned at the end is
    [logsWith] of the record as the function leaves it. *)
Definition logsWith (lr : plog.LogRecord) : plog.Logs :=
  plog.mkLogs [plog.mkResourceLogs [plog.mkScopeLogs [lr]]].

Definition newLogs : plog.Logs * plog.LogRecord :=
  (logsWith plog.NewLogRecord, plog.NewLogRecord).

(** Lines 40-44. *)
Definition unixNanoOf (ts : time.Time) : Z :=
  if negb (time.IsZero ts) then time.UnixNano ts else 0.

(** Lines 46-50. *)
Definition attrsCapacityOf (e : event.Event) : Z :=
  let attrsCapacity := 2 + Z.of_nat (size (event.Dimensions e)) in
  if 0 <? Z.of_nat (size (event.Properties e)) then attrsCapacity + 1 else attrsCapacity.

(** Lines 55-60. *)
Definition insertCategory (e : event.Event) (attrs : Map) : Map :=
  if event.Category e =? 0 then InsertNull SFxEventCategoryKey attrs
  else InsertInt SFxEventCategoryKey (GoInt.int64 (event.Category e)) attrs.

(** Lines 62-64. *)
Definition insertEventType (e : event.Event) (attrs : Map) : Map :=
  if negb (String.eqb (event.EventType e) "") then InsertString SFxEventType (event.EventType e) attrs
  else attrs.

(** Lines 66-68, for the visit [dims] of [event.Dimensions]. *)
Definition insertDimensions (dims : list (string * string)) (attrs : Map) : Map :=
  fold_left (fun attrs kv => InsertString (fst kv) (snd kv) attrs) dims attrs.

(** Lines 77-106: the body of the loop over the properties, on the logger
    and the nested map under construction. *)
Definition insertProperty (st : zap.Logger * Map) (property : string) (value : dyn.any)
  : zap.Logger * Map :=
  let '(logger, propMap) := st in
  match value with
  | dyn.Nil =>
      (zap.Debug logger "property with nil value will not be reported"
         [zap.String_ "property" property], propMap)
  | dyn.String_ v => (logger, InsertString property v propMap)
  | dyn.Bool v => (logger, InsertBool property v propMap)
  | dyn.Int v => (logger, InsertInt property (GoInt.int64 v) propMap)
  | dyn.Int8 v => (logger, InsertInt property (GoInt.int64 v) propMap)
  | dyn.Int16 v => (logger, InsertInt property (GoInt.int64 v) propMap)
  | dyn.Int32 v => (logger, InsertInt property (GoInt.int64 v) propMap)
  | dyn.Int64 v => (logger, InsertInt property v propMap)
  | dyn.Float32 v => (logger, InsertDouble property (GoFloat.float64_of_float32 v) propMap)
  | dyn.Float64 v => (logger, InsertDouble property v propMap)
  | dyn.Other v => (logger, InsertString property (fmt.Sprintf_v v) propMap)
  end.

(** Lines 71-107, for the visit [props] of [event.Properties]. *)
Definition buildPropMap (e : event.Event) (props : list (string * dyn.any))
    (logger : zap.Logger) : zap.Logger * Map :=
  let propMap := MapVal NewValueMap in
  let propMap := Clear propMap in
  let propMap := EnsureCapacity (Z.of_nat (size (event.Properties e))) propMap in
  fold_left (fun st kv => insertProperty st (fst kv) (snd kv)) props (logger, propMap).

(** Lines 70-110. *)
Definition insertProperties (e : event.Event) (props : list (string * dyn.any))
    (logger : zap.Logger) (attrs : Map) : zap.Logger * Map :=
  if 0 <? Z.of_nat (size (event.Properties e)) then
    let '(logger, propMap) := buildPropMap e props logger in
    (logger, Insert SFxEventPropertiesKey (ValueMap propMap) attrs)
  else (logger, attrs).

(** [sfxEventToPDataLogs], run with the visits [dims] and [props] that the
    two [range] loops make of the event's maps.  The logger is threaded
    through; the result is the returned container and the logger after the
    call. *)
Definition sfxEventToPDataLogsIn (dims : list (string * string))
    (props : list (string * dyn.any)) (e : event.Event) (logger : zap.Logger)
  : plog.Logs * zap.Logger :=
  let '(_, lr) := newLogs in
  let unixNano := unixNanoOf (event.Timestamp e) in
  let lr := plog.SetTimestamp (Timestamp unixNano) lr in
  let attrs := plog.Attributes lr in
  let attrs := Clear attrs in
  let attrs := EnsureCapacity (attrsCapacityOf e) attrs in
  let attrs := insertCategory e attrs in
  let attrs := insertEventType e attrs in
  let attrs := insertDimensions dims attrs in
  let '(logger, attrs) := insertProperties e props logger attrs in
  (logsWith (plog.SetAttributes attrs lr), logger).

(** One run, with the visit order stdpp's [map_to_list] gives. *)
Definition sfxEventToPDataLogs (e : event.Event) (logger : zap.Logger)
  : plog.Logs * zap.Logger :=
  sfxEventToPDataLogsIn (map_to_list (event.Dimensions e))
    (map_to_list (event.Properties e)) e logger.

(** [out] is a possible result of the call on [e] and [logger]: the result
    of the run for some visit order of the dimensions and of the
    properties. *)
Definition Converts (e : event.Event) (logger : zap.Logger)
    (out : plog.Logs * zap.Logger) : Prop :=
  exists dims props,
    ranges_over dims (event.Dimensions e) /\
    ranges_over props (event.Properties e) /\
    out = sfxEventToPDataLogsIn dims props e logger.

(** The single record of a returned container, and its attributes. *)
Definition recordOf (ld : plog.Logs) : option plog.LogRecord :=
  match plog.records ld with
  | [lr] => Some lr
  | _ => None
  end.

Definition attrsOf (ld : plog.Logs) : Map :=
  match recordOf ld with
  | Some lr => plog.Attributes lr
  | None => []
  end.

Definition timestampOf (ld : plog.Logs) : option Z :=
  option_map plog.Timestamp (recordOf ld).

(** The nested map stored under the properties marker, if one is. *)
Definition propertiesOf (ld : plog.Logs) : option Map :=
  match Get SFxEventPropertiesKey (attrsOf ld) with
  | Some (ValueMap m) => Some m
  | _ => None
  end.

(** First value a visit binds to [key]. *)
Fixpoint firstOf {V : Type} (key : string) (order : list (string * V)) : option V :=
  match order with
  | [] => None
  | (k, v) :: rest => if String.eqb k key then Some v else firstOf key rest
  end.

(** What one pass of the loop body writes for [value] into an empty map:
    the attribute of the type switch, or nothing for the nil interface. *)
Definition attributeOf (value : dyn.any) : option Value :=
  Get "p" (snd (insertProperty ([], []) "p" value)).

(** The entry line 78 writes for [property]. *)
Definition nilEntry (property : string) : zap.Entry :=
  zap.mkEntry zap.DebugLevel "property with nil value will not be reported"
    [zap.String_ "property" property].

Definition isNil (value : dyn.any) : bool :=
  match value with
  | dyn.Nil => true
  | _ => false
  end.

(** Entries the loop over [props] writes, in order. *)
Definition nilEntries (props : list (string * dyn.any)) : list zap.Entry :=
  flat_map (fun kv => if isNil (snd kv) then [nilEntry (fst kv)] else []) props.

(** Keys of the properties whose stored value is nil. *)
Definition nilProperties (e : event.Event) : list string :=
  List.map fst (List.filter (fun kv => isNil (snd kv)) (map_to_list (event.Properties e))).

(** Debug entries that name [property] in their [property] field. *)
Definition mentions (property : string) (en : zap.Entry) : bool :=
  existsb (fun f => String.eqb (zap.Key f) "property" && String.eqb (zap.Val f) property)
    (zap.Fields en).

End converter.

(** ** Sample events *)
Module samples.
Import dyn.

(** 3.5 as a [float64] and 1.5 as a [float32]. *)
Definition three_and_a_half : spec_float := S754_finite false 7881299347898368 (-51).
Definition one_and_a_half32 : spec_float := S754_finite false 12582912 (-23).

(** Category 0, no type, one dimension, no properties. *)
Definition scenarioA : event.Event :=
  event.mkEvent "" 0 {[ "host"%string := "a"%string ]} ∅ time.zero.

(** Category 5, a type, a double property and a nil one. *)
Definition scenarioB : event.Event :=
  event.mkEvent "alert" 5 ∅
    (<[ "p1"%string := Float64 three_and_a_half ]> {[ "p2"%string := Nil ]})
    (time.Unix 1 5).

(** One property of every kind the type switch tells apart. *)
Definition everyKind : event.Event :=
  event.mkEvent "alert" 7 {[ "host"%string := "a"%string ]}
    (list_to_map
       [("s"%string, String_ "text"); ("b"%string, Bool true);
        ("i"%string, Int (-3)); ("i8"%string, Int8 (-128)); ("i16"%string, Int16 300);
        ("i32"%string, Int32 70000); ("i64"%string, Int64 (2 ^ 40));
        ("f32"%string, Float32 one_and_a_half32);
        ("f64"%string, Float64 three_and_a_half);
        ("u8"%string, Other (Uint8 200)); ("u64"%string, Other (Uint64 (2 ^ 64 - 1)));
        ("st"%string, Other (Opaque "{1 2}")); ("n"%string, Nil)])
    (time.Unix 1700000000 0).

(** Dimensions keyed by one of the marker keys. *)
Definition categoryDimension : event.Event :=
  event.mkEvent "" 5 {[ "com.splunk.signalfx.event_category"%string := "x"%string ]} ∅
    time.zero.

Definition typeDimension : event.Event :=
  event.mkEvent "" 0 {[ "com.splunk.signalfx.event_type"%string := "z"%string ]} ∅
    time.zero.

Definition typeCollision : event.Event :=
  event.mkEvent "alert" 0 {[ "com.splunk.signalfx.event_type"%string := "z"%string ]} ∅
    time.zero.

Definition propertiesDimension : event.Event :=
  event.mkEvent "" 0 {[ "com.splunk.signalfx.event_properties"%string := "y"%string ]}
    {[ "a"%string := Bool true ]} time.zero.

(** The Unix epoch itself as the event time. *)
Definition atEpoch : event.Event :=
  event.mkEvent "" 0 ∅ ∅ (time.Unix 0 0).

End samples.

(** ** Further sample events *)
Module more_samples.
Import dyn.

(** One second before the Unix epoch. *)
Definition beforeEpoch : event.Event :=
  event.mkEvent "" 0 ∅ ∅ (time.Unix (-1) 0).

(** Two dimensions and two properties, to be visited in either order. *)
Definition twoOfEach : event.Event :=
  event.mkEvent "alert" 1
    (<[ "a"%string := "1"%string ]> {[ "b"%string := "2"%string ]})
    (<[ "p"%string := Bool true ]> {[ "q"%string := Nil ]})
    (time.Unix 10 0).

Definition dimsAB : list (string * string) := [("a", "1"); ("b", "2")]%string.
Definition dimsBA : list (string * string) := [("b", "2"); ("a", "1")]%string.
Definition propsPQ : list (string * any) := [("p"%string, Bool true); ("q"%string, Nil)].
Definition propsQP : list (string * any) := [("q"%string, Nil); ("p"%string, Bool true)].

(** The smallest positive subnormal [float32]. *)
Definition tiny32 : spec_float := S754_finite false 1 (-149).

End more_samples.

(** ** Pointers and run-time panics

    The converter receives its event and its logger through pointers.  A
    selector or method call through a nil pointer is a run-time panic
    ("invalid memory address or nil pointer dereference"); a computation
    either returns a value or panics, and a panic ends it. *)
Module runtime.

Inductive panic : Type :=
| NilDereference.

Inductive outcome (A : Type) : Type :=
| Returns (a : A)
| Panics (p : panic).

Arguments Returns {A} a.
Arguments Panics {A} p.

Definition bind {A B : Type} (o : outcome A) (k : A -> outcome B) : outcome B :=
  match o with
  | Returns a => k a
  | Panics p => Panics p
  end.

(** Reading through a pointer: nil is [None]. *)
Definition deref {A : Type} (p : option A) : outcome A :=
  match p with
  | Some a => Returns a
  | None => Panics NilDereference
  end.

End runtime.

(** The sequencing notation [x ← o; k] of stdpp, for outcomes. *)
#[global] Instance outcome_bind : MBind runtime.outcome :=
  fun A B k o => runtime.bind o k.

(** ** The converter, called through its pointers

    [sfxEventToPDataLogs(event *event.Event, logger *zap.Logger)] with the
    places where it reads through [event] (first at line 41) and calls a
    method of [logger] (line 78, [Debug] reads the logger's core) made
    explicit.  The value given to [attrs.Insert] at line 109 comes from
    [pcommon.NewValueMap()], so it is never the zero-initialized value on
    which [Insert] panics. *)
Module converter_ptr.
Import pcommon converter runtime.

(** [logger.Debug(msg, fields...)] through the pointer. *)
Definition Debug (logger : option zap.Logger) (msg : string) (fields : list zap.Field)
  : outcome (option zap.Logger) :=
  lg ← deref logger;
  Returns (Some (zap.Debug lg msg fields)).

(** Lines 77-106. *)
Definition insertProperty (st : option zap.Logger * Map) (property : string)
    (value : dyn.any) : outcome (option zap.Logger * Map) :=
  let '(logger, propMap) := st in
  match value with
  | dyn.Nil =>
      logger ← Debug logger "property with nil value will not be reported"
                 [zap.String_ "property" property];
      Returns (logger, propMap)
  | dyn.String_ v => Returns (logger, InsertString property v propMap)
  | dyn.Bool v => Returns (logger, InsertBool property v propMap)
  | dyn.Int v => Returns (logger, InsertInt property (GoInt.int64 v) propMap)
  | dyn.Int8 v => Returns (logger, InsertInt property (GoInt.int64 v) propMap)
  | dyn.Int16 v => Returns (logger, InsertInt property (GoInt.int64 v) propMap)
  | dyn.Int32 v => Returns (logger, InsertInt property (GoInt.int64 v) propMap)
  | dyn.Int64 v => Returns (logger, InsertInt property v propMap)
  | dyn.Float32 v =>
      Returns (logger, InsertDouble property (GoFloat.float64_of_float32 v) propMap)
  | dyn.Float64 v => Returns (logger, InsertDouble property v propMap)
  | dyn.Other v => Returns (logger, InsertString property (fmt.Sprintf_v v) propMap)
  end.

(** Lines 76-107: the loop, which a panic in its body leaves at once. *)
Fixpoint rangeProperties (props : list (string * dyn.any))
    (st : option zap.Logger * Map) : outcome (option zap.Logger * Map) :=
  match props with
  | [] => Returns st
  | (property, value) :: rest =>
      st ← insertProperty st property value;
      rangeProperties rest st
  end.

(** Lines 71-107. *)
Definition buildPropMap (e : event.Event) (props : list (string * dyn.any))
    (logger : option zap.Logger) : outcome (option zap.Logger * Map) :=
  let propMap := MapVal NewValueMap in
  let propMap := Clear propMap in
  let propMap := EnsureCapacity (Z.of_nat (size (event.Properties e))) propMap in
  rangeProperties props (logger, propMap).

(** Lines 70-110. *)
Definition insertProperties (e : event.Event) (props : list (string * dyn.any))
    (logger : option zap.Logger) (attrs : Map) : outcome (option zap.Logger * Map) :=
  if 0 <? Z.of_nat (size (event.Properties e)) then
    '(logger, propMap) ← buildPropMap e props logger;
    Returns (logger, Insert SFxEventPropertiesKey (ValueMap propMap) attrs)
  else Returns (logger, attrs).

(** Lines 37-113, for the visits [dims] and [props] of the event's maps. *)
Definition sfxEventToPDataLogs (dims : list (string * string))
    (props : list (string * dyn.any)) (event : option event.Event)
    (logger : option zap.Logger) : outcome (plog.Logs * option zap.Logger) :=
  let '(_, lr) := newLogs in
  e ← deref event;
  let unixNano := unixNanoOf (event.Timestamp e) in
  let lr := plog.SetTimestamp (Timestamp unixNano) lr in
  let attrs := plog.Attributes lr in
  let attrs := Clear attrs in
  let attrs := EnsureCapacity (attrsCapacityOf e) attrs in
  let attrs := insertCategory e attrs in
  let attrs := insertEventType e attrs in
  let attrs := insertDimensions dims attrs in
  '(logger, attrs) ← insertProperties e props logger attrs;
  Returns (logsWith (plog.SetAttributes attrs lr), logger).

End converter_ptr.

(** * Properties *)

Import pcommon converter.

(** ** Integer conversions *)
Section IntFacts.

Lemma int64_id (z : Z) : GoInt.in_signed 64 z -> GoInt.int64 z = z.
Proof.
  unfold GoInt.in_signed, GoInt.int64, GoInt.wrap_signed. intros H.
  change (2 ^ (64 - 1)) with 9223372036854775808 in *.
  change (2 ^ 64) with 18446744073709551616.
  rewrite Z.mod_small; lia.
Qed.

Lemma in_signed_mono (w w' z : Z) :
  0 < w <= w' -> GoInt.in_signed w z -> GoInt.in_signed w' z.
Proof.
  unfold GoInt.in_signed. intros Hw H.
  assert (2 ^ (w - 1) <= 2 ^ (w' - 1)) by (apply Z.pow_le_mono_r; lia). lia.
Qed.

Lemma uint64_id (z : Z) : 0 <= z < 2 ^ 64 -> GoInt.uint64 z = z.
Proof. intros H. unfold GoInt.uint64, GoInt.wrap_unsigned. by apply Z.mod_small. Qed.

End IntFacts.

(** ** Widening a [float32] *)
Section FloatFacts.

Lemma digits2_pos_iter_xO (m d : positive) :
  Z.pos (digits2_pos (Pos.iter xO m d)) = Z.pos (digits2_pos m) + Z.pos d.
Proof.
  induction d as [|d IH] using Pos.peano_ind.
  - simpl. lia.
  - rewrite Pos.iter_succ. simpl. lia.
Qed.

Lemma iter_xO_value (m d : positive) :
  Z.pos (Pos.iter xO m d) = Z.pos m * 2 ^ Z.pos d.
Proof.
  induction d as [|d IH] using Pos.peano_ind.
  - simpl. lia.
  - rewrite Pos.iter_succ, Pos2Z.inj_succ, Z.pow_succ_r by lia.
    change (Z.pos (Pos.iter xO m d)~0) with (2 * Z.pos (Pos.iter xO m d)). lia.
Qed.

(** Rounding a finite [float32] into binary64 only shifts the mantissa up
    to 53 digits: no bit is lost and the result is a normal [float64]. *)
Lemma binary_round_float32 (s : bool) (m : positive) (e : Z) :
  GoFloat.is_float32 (S754_finite s m e) ->
  exists d : positive,
    Z.pos d = 53 - Z.pos (digits2_pos m) /\
    binary_round 53 1024 s m e = S754_finite s (Pos.iter xO m d) (e - Z.pos d) /\
    GoFloat.is_float64 (S754_finite s (Pos.iter xO m d) (e - Z.pos d)).
Proof.
  unfold GoFloat.is_float32, GoFloat.is_float64. simpl.
  unfold bounded at 1, canonical_mantissa, fexp, emin.
  intros H. apply andb_prop in H as [Hc Hb].
  apply Z.eqb_eq in Hc. apply Z.leb_le in Hb.
  set (n := Z.pos (digits2_pos m)) in *.
  assert (Hn : 0 < n <= 24) by (unfold n; lia).
  exists (Z.to_pos (53 - n)).
  assert (Hd : Z.pos (Z.to_pos (53 - n)) = 53 - n) by (apply Z2Pos.id; lia).
  split; [exact Hd|].
  assert (Hv : bounded 53 1024 (Pos.iter xO m (Z.to_pos (53 - n)))
                 (e - Z.pos (Z.to_pos (53 - n))) = true).
  { unfold bounded, canonical_mantissa, fexp, emin.
    rewrite digits2_pos_iter_xO. fold n. rewrite Hd.
    apply andb_true_intro. split; [apply Z.eqb_eq | apply Z.leb_le]; lia. }
  split; [|exact Hv].
  unfold binary_round, shl_align, fexp, emin. fold n.
  replace (Z.max (n + e - 53) (3 - 1024 - 53) - e)
    with (Z.neg (Z.to_pos (53 - n))) by lia.
  unfold binary_round_aux, shr_fexp. cbn [shr_record_of_loc Zdigits2].
  rewrite digits2_pos_iter_xO. fold n. rewrite Hd.
  unfold fexp, emin.
  replace (Z.max (n + (53 - n) + Z.max (n + e - 53) (3 - 1024 - 53) - 53)
             (3 - 1024 - 53) - Z.max (n + e - 53) (3 - 1024 - 53)) with 0 by lia.
  cbn [shr shr_m loc_of_shr_record round_nearest_even Zdigits2].
  rewrite digits2_pos_iter_xO. fold n. rewrite Hd.
  replace (Z.max (n + (53 - n) + Z.max (n + e - 53) (3 - 1024 - 53) - 53)
             (3 - 1024 - 53) - Z.max (n + e - 53) (3 - 1024 - 53)) with 0 by lia.
  cbn [shr shr_m].
  replace (Z.max (n + e - 53) (3 - 1024 - 53)) with (e - (53 - n)) by lia.
  assert (Hle : (e - (53 - n) <=? 1024 - 53) = true) by (apply Z.leb_le; lia).
  rewrite Hle. reflexivity.
Qed.

Lemma float64_of_float32_exact (f : spec_float) :
  GoFloat.is_float32 f ->
  GoFloat.is_float64 (GoFloat.float64_of_float32 f) /\
  GoFloat.same_number f (GoFloat.float64_of_float32 f).
Proof.
  destruct f as [s|s| |s m e]; simpl; intros Hf; try (split; done).
  destruct (binary_round_float32 s m e Hf) as (d & Hd & Hr & Hv).
  rewrite Hr. split; [exact Hv|]. simpl. split; [done|].
  replace (Z.min e (e - Z.pos d)) with (e - Z.pos d) by lia.
  rewrite iter_xO_value, Z.sub_diag.
  replace (e - (e - Z.pos d)) with (Z.pos d) by lia. simpl. lia.
Qed.

End FloatFacts.

(** ** Base-10 text *)
Section FmtFacts.

Lemma ParseUint_FormatUint (n : N) : fmt.ParseUint (fmt.FormatUint n) = Some n.
Proof.
  unfold fmt.ParseUint, fmt.FormatUint. rewrite NilZero.usu.
  - simpl. f_equal. apply DecimalN.Unsigned.of_to.
  - destruct n as [|p]; simpl; [discriminate | apply Unsigned.to_uint_nonnil].
Qed.

Lemma FormatUint_200 : fmt.FormatUint 200 = "200"%string.
Proof. reflexivity. Qed.

End FmtFacts.

(** ** The attribute map *)
Section MapFacts.

Lemma Get_app (k : string) (m1 m2 : Map) :
  Get k (m1 ++ m2) = Get k m1 ∪ Get k m2.
Proof.
  induction m1 as [|[k1 v1] m1 IH]; simpl.
  - by destruct (Get k m2).
  - destruct (String.eqb k1 k); [by destruct (Get k m2) | apply IH].
Qed.

Lemma Get_Insert (k k' : string) (v : Value) (m : Map) :
  Get k (Insert k' v m) = Get k m ∪ (if String.eqb k' k then Some v else None).
Proof.
  unfold Insert. destruct (Get k' m) as [x|] eqn:Hk'.
  - destruct (String.eqb_spec k' k) as [->|Hne].
    + rewrite Hk'. done.
    + by destruct (Get k m).
  - rewrite Get_app. simpl. by destruct (String.eqb k' k).
Qed.

Lemma Get_None_keys (k : string) (m : Map) :
  Get k m = None <-> k ∉ m.*1.
Proof.
  induction m as [|[k1 v1] m IH]; simpl.
  - split; [intros _; apply not_elem_of_nil | done].
  - rewrite not_elem_of_cons. destruct (String.eqb_spec k1 k) as [->|Hne].
    + split; [done | intros [? _]; done].
    + rewrite IH. split; [intros ?; split; [congruence | done] | intros [_ ?]; done].
Qed.

Lemma Insert_NoDup (k : string) (v : Value) (m : Map) :
  NoDup m.*1 -> NoDup (Insert k v m).*1.
Proof.
  intros Hnd. unfold Insert. destruct (Get k m) eqn:Hk; [done|].
  rewrite fmap_app. simpl. apply NoDup_app. split; [done|]. split.
  - intros x Hx Hin. apply list_elem_of_singleton in Hin as ->.
    by apply Get_None_keys in Hk.
  - apply NoDup_singleton.
Qed.

Lemma occurrences_notin (k : string) (m : Map) :
  k ∉ m.*1 -> occurrences k m = 0%nat.
Proof.
  unfold occurrences. induction m as [|[k1 v1] m IH]; simpl; [done|].
  rewrite not_elem_of_cons. intros [Hne Hnotin].
  destruct (String.eqb_spec k1 k) as [->|_]; [done | by apply IH].
Qed.

Lemma occurrences_NoDup (k : string) (m : Map) :
  NoDup m.*1 -> is_Some (Get k m) -> occurrences k m = 1%nat.
Proof.
  induction m as [|[k1 v1] m IH]; simpl; intros Hnd [x Hx]; [done|].
  apply NoDup_cons in Hnd as [Hnotin Hnd]. unfold occurrences in *. simpl.
  destruct (String.eqb_spec k1 k) as [->|Hne]; simpl.
  - f_equal. by apply occurrences_notin.
  - apply IH; [done | by exists x].
Qed.

End MapFacts.

(** ** Visits of a Go map *)
Section Visits.
Context {V : Type}.
Implicit Types (order : list (string * V)) (m : gmap string V).

Lemma firstOf_None (k : string) order :
  firstOf k order = None <-> k ∉ order.*1.
Proof.
  induction order as [|[k1 v1] order IH]; simpl.
  - split; [intros _; apply not_elem_of_nil | done].
  - rewrite not_elem_of_cons. destruct (String.eqb_spec k1 k) as [->|Hne].
    + split; [done | intros [? _]; done].
    + rewrite IH. split; [intros ?; split; [congruence | done] | intros [_ ?]; done].
Qed.

Lemma firstOf_elem (k : string) (v : V) order :
  NoDup order.*1 -> (k, v) ∈ order -> firstOf k order = Some v.
Proof.
  induction order as [|[k1 v1] order IH]; simpl; intros Hnd Hin.
  - by apply elem_of_nil in Hin.
  - apply NoDup_cons in Hnd as [Hnotin Hnd].
    apply elem_of_cons in Hin as [Heq|Hin].
    + injection Heq as -> ->. by rewrite String.eqb_refl.
    + destruct (String.eqb_spec k1 k) as [->|Hne]; [|by apply IH].
      exfalso. apply Hnotin. apply list_elem_of_fmap. by exists (k, v).
Qed.

Lemma ranges_over_NoDup order m : ranges_over order m -> NoDup order.*1.
Proof.
  intros Hr. unfold ranges_over in Hr. rewrite Hr. apply NoDup_fst_map_to_list.
Qed.

Lemma ranges_over_elem order m (k : string) (v : V) :
  ranges_over order m -> (k, v) ∈ order <-> m !! k = Some v.
Proof.
  intros Hr. unfold ranges_over in Hr. rewrite Hr. apply elem_of_map_to_list.
Qed.

Lemma firstOf_ranges (k : string) order m :
  ranges_over order m -> firstOf k order = m !! k.
Proof.
  intros Hr. destruct (m !! k) as [v|] eqn:Hk.
  - apply firstOf_elem; [by eapply ranges_over_NoDup | by apply (ranges_over_elem order m)].
  - apply firstOf_None. intros Hin. apply list_elem_of_fmap in Hin as [[k' v] [Heq Hin]].
    simpl in Heq. subst k'. apply (ranges_over_elem order m) in Hin; [congruence | done].
Qed.

Lemma ranges_over_length order m : ranges_over order m -> length order = size m.
Proof.
  intros Hr. unfold ranges_over in Hr. rewrite Hr. apply length_map_to_list.
Qed.

Lemma ranges_over_map_to_list m : ranges_over (map_to_list m) m.
Proof. unfold ranges_over. reflexivity. Qed.

End Visits.

(** ** The two loops *)
Section Loops.

Lemma Get_insertDimensions (k : string) (dims : list (string * string)) (attrs : Map) :
  Get k (insertDimensions dims attrs) = Get k attrs ∪ (ValueString <$> firstOf k dims).
Proof.
  unfold insertDimensions. revert attrs.
  induction dims as [|[k1 v1] dims IH]; intros attrs; simpl.
  - by destruct (Get k attrs).
  - rewrite IH. unfold InsertString. rewrite Get_Insert.
    destruct (Get k attrs), (String.eqb k1 k), (firstOf k dims); done.
Qed.

Lemma insertDimensions_NoDup (dims : list (string * string)) (attrs : Map) :
  NoDup attrs.*1 -> NoDup (insertDimensions dims attrs).*1.
Proof.
  unfold insertDimensions. revert attrs.
  induction dims as [|[k1 v1] dims IH]; intros attrs Hnd; simpl; [done|].
  apply IH. by apply Insert_NoDup.
Qed.

Lemma insertProperty_eq (logger : zap.Logger) (propMap : Map) (k : string) (a : dyn.any) :
  insertProperty (logger, propMap) k a =
    (logger ++ (if isNil a then [nilEntry k] else []),
     match attributeOf a with
     | Some v => Insert k v propMap
     | None => propMap
     end).
Proof.
  destruct a; simpl; rewrite ?app_nil_r; reflexivity.
Qed.

Lemma fold_insertProperty (props : list (string * dyn.any)) (logger : zap.Logger)
    (propMap : Map) :
  exists m',
    fold_left (fun st kv => insertProperty st (fst kv) (snd kv)) props (logger, propMap)
      = (logger ++ nilEntries props, m') /\
    (NoDup propMap.*1 -> NoDup m'.*1) /\
    (NoDup props.*1 ->
     forall k, Get k m' = Get k propMap ∪ (firstOf k props ≫= attributeOf)).
Proof.
  revert logger propMap.
  induction props as [|[k1 a1] props IH]; intros logger propMap; cbn [fold_left fst snd].
  - exists propMap. unfold nilEntries. simpl. rewrite app_nil_r. split; [done|]. split; [done|].
    intros _ k. by destruct (Get k propMap).
  - rewrite insertProperty_eq.
    destruct (IH (logger ++ (if isNil a1 then [nilEntry k1] else []))
                (match attributeOf a1 with
                 | Some v => Insert k1 v propMap
                 | None => propMap
                 end)) as (m' & Hfold & Hnd & Hget).
    exists m'. split; [|split].
    + etrans; [exact Hfold|]. unfold nilEntries. simpl. by rewrite <- app_assoc.
    + intros Hp. apply Hnd. destruct (attributeOf a1); [by apply Insert_NoDup | done].
    + intros Hprops k. rewrite fmap_cons in Hprops. cbn [fst] in Hprops.
      apply NoDup_cons in Hprops as [Hnotin Hprops].
      rewrite (Hget Hprops k). cbn [firstOf].
      destruct (String.eqb_spec k1 k) as [->|Hne].
      * apply firstOf_None in Hnotin. rewrite Hnotin. simpl.
        destruct (attributeOf a1) as [v|]; simpl.
        -- rewrite Get_Insert, String.eqb_refl. by destruct (Get k propMap).
        -- by destruct (Get k propMap).
      * destruct (attributeOf a1) as [v|]; [|done].
        rewrite Get_Insert. apply String.eqb_neq in Hne. rewrite Hne.
        by destruct (Get k propMap).
Qed.

End Loops.

(** ** One run of the converter *)
Section Run.
Variables (dims : list (string * string)) (props : list (string * dyn.any)).
Variables (e : event.Event) (logger : zap.Logger).
Hypothesis Hdims : ranges_over dims (event.Dimensions e).
Hypothesis Hprops : ranges_over props (event.Properties e).

Lemma buildPropMap_spec :
  exists propMap,
    buildPropMap e props logger = (logger ++ nilEntries props, propMap) /\
    NoDup propMap.*1 /\
    forall k, Get k propMap = event.Properties e !! k ≫= attributeOf.
Proof.
  unfold buildPropMap, EnsureCapacity, Clear.
  destruct (fold_insertProperty props logger []) as (m' & Hfold & Hnd & Hget).
  exists m'. split; [exact Hfold|]. split; [apply Hnd; constructor|].
  intros k. rewrite (Hget (ranges_over_NoDup _ _ Hprops) k).
  rewrite (firstOf_ranges k props _ Hprops). simpl.
  by destruct (event.Properties e !! k ≫= attributeOf).
Qed.

Lemma run_spec :
  exists propMap attrs,
    buildPropMap e props logger = (logger ++ nilEntries props, propMap) /\
    NoDup propMap.*1 /\
    (forall k, Get k propMap = event.Properties e !! k ≫= attributeOf) /\
    sfxEventToPDataLogsIn dims props e logger =
      (logsWith (plog.mkLogRecord (Timestamp (unixNanoOf (event.Timestamp e))) attrs),
       logger ++ nilEntries props) /\
    NoDup attrs.*1 /\
    forall k,
      Get k attrs =
        (((if String.eqb SFxEventCategoryKey k
           then Some (if event.Category e =? 0 then ValueEmpty
                      else ValueInt (GoInt.int64 (event.Category e)))
           else None)
          ∪ (if negb (String.eqb (event.EventType e) "") && String.eqb SFxEventType k
             then Some (ValueString (event.EventType e)) else None))
         ∪ (ValueString <$> event.Dimensions e !! k))
        ∪ (if (0 <? Z.of_nat (size (event.Properties e))) && String.eqb SFxEventPropertiesKey k
           then Some (ValueMap propMap) else None).
Proof.
  destruct buildPropMap_spec as (propMap & Hbuild & Hnd & Hget).
  set (a1 := insertCategory e []).
  set (a2 := insertEventType e a1).
  set (a3 := insertDimensions dims a2).
  assert (Hnd3 : NoDup a3.*1).
  { apply insertDimensions_NoDup. unfold a2, insertEventType, InsertString.
    assert (NoDup a1.*1).
    { unfold a1, insertCategory, InsertNull, InsertInt.
      destruct (event.Category e =? 0); apply Insert_NoDup; constructor. }
    destruct (negb _); [by apply Insert_NoDup | done]. }
  assert (Hget3 : forall k, Get k a3 =
    ((if String.eqb SFxEventCategoryKey k
      then Some (if event.Category e =? 0 then ValueEmpty
                 else ValueInt (GoInt.int64 (event.Category e)))
      else None)
     ∪ (if negb (String.eqb (event.EventType e) "") && String.eqb SFxEventType k
        then Some (ValueString (event.EventType e)) else None))
    ∪ (ValueString <$> event.Dimensions e !! k)).
  { intros k. unfold a3. rewrite Get_insertDimensions.
    rewrite (firstOf_ranges k dims _ Hdims). f_equal.
    unfold a2, insertEventType, InsertString.
    assert (Hc : Get k a1 = if String.eqb SFxEventCategoryKey k
      then Some (if event.Category e =? 0 then ValueEmpty
                 else ValueInt (GoInt.int64 (event.Category e)))
      else None).
    { unfold a1, insertCategory, InsertNull, InsertInt.
      destruct (event.Category e =? 0); rewrite Get_Insert; cbn [Get];
        by destruct (String.eqb SFxEventCategoryKey k). }
    destruct (negb _); cbn [andb].
    - rewrite Get_Insert, Hc. done.
    - rewrite Hc. by destruct (String.eqb SFxEventCategoryKey k). }
  unfold sfxEventToPDataLogsIn, newLogs, insertProperties, EnsureCapacity, Clear.
  cbn [plog.Attributes plog.NewLogRecord plog.SetTimestamp plog.SetAttributes
         plog.Timestamp pcommon.NewMap].
  fold a1 a2 a3.
  destruct (0 <? Z.of_nat (size (event.Properties e))) eqn:Hsz.
  - rewrite Hbuild. exists propMap, (Insert SFxEventPropertiesKey (ValueMap propMap) a3).
    repeat split; try done.
    + by apply Insert_NoDup.
    + intros k. rewrite Get_Insert, Hget3. done.
  - assert (props = []) as Hnil.
    { apply length_zero_iff_nil. rewrite (ranges_over_length _ _ Hprops).
      apply Z.ltb_ge in Hsz. lia. }
    exists propMap, a3. repeat split; try done.
    + rewrite Hnil. unfold nilEntries. simpl. by rewrite app_nil_r.
    + intros k. rewrite Hget3. cbn [andb].
      by destruct (_ ∪ (ValueString <$> event.Dimensions e !! k)).
Qed.

End Run.

(** ** The entries written for nil properties *)
Section LoggerFacts.

Lemma mentions_nilEntry (k k' : string) : mentions k (nilEntry k') = String.eqb k' k.
Proof.
  unfold mentions, nilEntry. cbn [zap.Fields existsb zap.Key zap.Val].
  change (String.eqb "property" "property") with true.
  by destruct (String.eqb k' k).
Qed.

Lemma nilEntries_level (props : list (string * dyn.any)) :
  Forall (fun en => zap.EntryLevel en = zap.DebugLevel) (nilEntries props).
Proof.
  unfold nilEntries. induction props as [|[k a] props IH]; simpl; [constructor|].
  destruct (isNil a); simpl; [by constructor | done].
Qed.

Lemma nilEntries_length_perm (props props' : list (string * dyn.any)) :
  props ≡ₚ props' -> length (nilEntries props) = length (nilEntries props').
Proof.
  unfold nilEntries.
  induction 1 as [|[k a] l l' _ IH|[k a] [k' a'] l|l l' l'' _ IH1 _ IH2]; simpl.
  - done.
  - rewrite !length_app, IH. done.
  - rewrite !length_app. destruct (isNil a), (isNil a'); simpl; lia.
  - congruence.
Qed.

Lemma nilEntries_length (e : event.Event) (props : list (string * dyn.any)) :
  ranges_over props (event.Properties e) ->
  length (nilEntries props) = length (nilProperties e).
Proof.
  intros Hr. rewrite (nilEntries_length_perm _ _ Hr).
  unfold nilProperties, nilEntries. rewrite length_map.
  induction (map_to_list (event.Properties e)) as [|[k a] l IH]; simpl; [done|].
  rewrite length_app, IH. by destruct (isNil a).
Qed.

Lemma nilEntries_mentions (k : string) (props : list (string * dyn.any)) :
  NoDup props.*1 ->
  length (List.filter (mentions k) (nilEntries props)) =
    match firstOf k props with
    | Some a => if isNil a then 1%nat else 0%nat
    | None => 0%nat
    end.
Proof.
  unfold nilEntries. induction props as [|[k1 a1] props IH]; intros Hnd; [done|].
  rewrite fmap_cons in Hnd. cbn [fst] in Hnd.
  apply NoDup_cons in Hnd as [Hnotin Hnd].
  cbn [flat_map firstOf fst snd]. rewrite List.filter_app, length_app, (IH Hnd).
  destruct (String.eqb_spec k1 k) as [->|Hne].
  - apply firstOf_None in Hnotin. rewrite Hnotin.
    destruct (isNil a1); cbn [List.filter]; [|done].
    rewrite mentions_nilEntry, String.eqb_refl. done.
  - destruct (isNil a1); cbn [List.filter]; [|done].
    rewrite mentions_nilEntry. apply String.eqb_neq in Hne. rewrite Hne. done.
Qed.

End LoggerFacts.

(** ** What every possible result looks like *)
Section Results.

Lemma attributeOf_None (a : dyn.any) : attributeOf a = None <-> a = dyn.Nil.
Proof. destruct a; split; (done || discriminate). Qed.

Lemma Converts_sfxEventToPDataLogs (e : event.Event) (logger : zap.Logger) :
  Converts e logger (sfxEventToPDataLogs e logger).
Proof.
  exists (map_to_list (event.Dimensions e)), (map_to_list (event.Properties e)).
  split; [apply ranges_over_map_to_list|]. split; [apply ranges_over_map_to_list|done].
Qed.

Lemma Converts_inv (e : event.Event) (logger : zap.Logger) (out : plog.Logs * zap.Logger) :
  Converts e logger out ->
  exists props propMap attrs,
    ranges_over props (event.Properties e) /\
    out = (logsWith (plog.mkLogRecord (Timestamp (unixNanoOf (event.Timestamp e))) attrs),
           logger ++ nilEntries props) /\
    NoDup propMap.*1 /\
    (forall k, Get k propMap = event.Properties e !! k ≫= attributeOf) /\
    NoDup attrs.*1 /\
    forall k,
      Get k attrs =
        (((if String.eqb SFxEventCategoryKey k
           then Some (if event.Category e =? 0 then ValueEmpty
                      else ValueInt (GoInt.int64 (event.Category e)))
           else None)
          ∪ (if negb (String.eqb (event.EventType e) "") && String.eqb SFxEventType k
             then Some (ValueString (event.EventType e)) else None))
         ∪ (ValueString <$> event.Dimensions e !! k))
        ∪ (if (0 <? Z.of_nat (size (event.Properties e))) && String.eqb SFxEventPropertiesKey k
           then Some (ValueMap propMap) else None).
Proof.
  intros (dims & props & Hdims & Hprops & ->).
  destruct (run_spec dims props e logger Hdims Hprops)
    as (propMap & attrs & _ & Hnd & Hget & Hrun & Hnda & Hgeta).
  exists props, propMap, attrs. by rewrite Hrun.
Qed.

Lemma size_pos_nonempty {V : Type} (m : gmap string V) :
  (0 <? Z.of_nat (size m)) = true <-> m ≠ ∅.
Proof.
  rewrite Z.ltb_lt, <- map_size_non_empty_iff. lia.
Qed.

(** The nested map of a result, from the description of its attributes. *)
Lemma propertiesOf_logsWith (e : event.Event) (ts : Z) (attrs propMap : Map) :
  Get SFxEventPropertiesKey attrs =
    (ValueString <$> event.Dimensions e !! SFxEventPropertiesKey)
    ∪ (if 0 <? Z.of_nat (size (event.Properties e)) then Some (ValueMap propMap) else None) ->
  forall m,
    propertiesOf (logsWith (plog.mkLogRecord ts attrs)) = Some m <->
    event.Dimensions e !! SFxEventPropertiesKey = None /\
    event.Properties e ≠ ∅ /\ m = propMap.
Proof.
  intros Hget m. unfold propertiesOf.
  change (attrsOf (logsWith (plog.mkLogRecord ts attrs))) with attrs.
  rewrite Hget, <- size_pos_nonempty.
  destruct (event.Dimensions e !! SFxEventPropertiesKey) as [v|];
    destruct (0 <? Z.of_nat (size (event.Properties e))); simpl;
    (split; [intros Hm | intros (Hd & Hp & ->)]); try discriminate; try done.
  by injection Hm as ->.
Qed.

End Results.

(** ** Well-formed sample events *)
Section WellFormed.

Lemma well_formed_intro (e : event.Event) :
  GoInt.in_signed 32 (event.Category e) ->
  Forall (fun kv => dyn.well_typed (snd kv)) (map_to_list (event.Properties e)) ->
  event.well_formed e.
Proof.
  intros Hc Hp. split; [exact Hc|]. intros k a Hk.
  apply elem_of_map_to_list in Hk. rewrite Forall_forall in Hp. by apply (Hp (k, a)).
Qed.

Lemma category_in_int64 (e : event.Event) :
  event.well_formed e -> GoInt.int64 (event.Category e) = event.Category e.
Proof.
  intros [Hc _]. apply int64_id. revert Hc. apply in_signed_mono. lia.
Qed.

(** Computes the visit of the properties, then checks each value. *)
Ltac check_well_formed :=
  apply well_formed_intro;
  [ by vm_compute
  | match goal with
    | |- Forall _ ?l => let l' := eval vm_compute in l in change l with l'
    end;
    repeat (constructor; [by vm_compute|]); constructor ].

Lemma scenarioA_well_formed : event.well_formed samples.scenarioA.
Proof. check_well_formed. Qed.

Lemma scenarioB_well_formed : event.well_formed samples.scenarioB.
Proof. check_well_formed. Qed.

Lemma everyKind_well_formed : event.well_formed samples.everyKind.
Proof. check_well_formed. Qed.

Lemma categoryDimension_well_formed : event.well_formed samples.categoryDimension.
Proof. check_well_formed. Qed.

Lemma typeCollision_well_formed : event.well_formed samples.typeCollision.
Proof. check_well_formed. Qed.

End WellFormed.

(** ** The scenarios, run *)
Section Scenarios.

Example scenarioA_run :
  sfxEventToPDataLogs samples.scenarioA [] =
    (logsWith (plog.mkLogRecord 0
       [(SFxEventCategoryKey, ValueEmpty); ("host"%string, ValueString "a")]), []).
Proof. vm_compute. reflexivity. Qed.

Example scenarioB_run :
  sfxEventToPDataLogs samples.scenarioB [] =
    (logsWith (plog.mkLogRecord 1000000005
       [(SFxEventCategoryKey, ValueInt 5);
        (SFxEventType, ValueString "alert");
        (SFxEventPropertiesKey,
         ValueMap [("p1"%string, ValueDouble samples.three_and_a_half)])]),
     [nilEntry "p2"]).
Proof. vm_compute. reflexivity. Qed.

Example zero_and_epoch_collapse :
  event.Timestamp samples.scenarioA <> event.Timestamp samples.atEpoch /\
  timestampOf (sfxEventToPDataLogs samples.scenarioA []).1 = Some 0 /\
  timestampOf (sfxEventToPDataLogs samples.atEpoch []).1 = Some 0.
Proof. split; [discriminate|]. split; vm_compute; reflexivity. Qed.

Example float32_widened :
  GoFloat.float64_of_float32 samples.one_and_a_half32
    = S754_finite false 6755399441055744 (-52).
Proof. vm_compute. reflexivity. Qed.

End Scenarios.

(** * Properties of the converter *)

(** Folds the left-biased unions of options once an operand is known. *)
Ltac option_unions :=
  repeat first
    [ rewrite union_Some_l
    | rewrite (left_id_L None (∪))
    | rewrite (right_id_L None (∪)) ].

Section MarkerKeys.

Lemma marker_keys_distinct :
  String.eqb SFxEventCategoryKey SFxEventType = false /\
  String.eqb SFxEventCategoryKey SFxEventPropertiesKey = false /\
  String.eqb SFxEventType SFxEventCategoryKey = false /\
  String.eqb SFxEventType SFxEventPropertiesKey = false /\
  String.eqb SFxEventPropertiesKey SFxEventCategoryKey = false /\
  String.eqb SFxEventPropertiesKey SFxEventType = false.
Proof. repeat split; reflexivity. Qed.

(** The category marker is written first, so nothing can take its place. *)
Lemma Get_category_marker (e : event.Event) (logger : zap.Logger)
    (out : plog.Logs * zap.Logger) :
  Converts e logger out ->
  NoDup (attrsOf out.1).*1 /\
  Get SFxEventCategoryKey (attrsOf out.1) =
    Some (if event.Category e =? 0 then ValueEmpty
          else ValueInt (GoInt.int64 (event.Category e))).
Proof.
  intros Hc. destruct (Converts_inv e logger out Hc)
    as (props & propMap & attrs & _ & -> & _ & _ & Hnd & Hget).
  change (attrsOf _) with attrs. split; [exact Hnd|].
  rewrite Hget, String.eqb_refl. by option_unions.
Qed.

(** The type marker: the event type when there is one, else whatever a
    dimension of that key brings. *)
Lemma Get_type_marker (e : event.Event) (logger : zap.Logger)
    (out : plog.Logs * zap.Logger) :
  Converts e logger out ->
  Get SFxEventType (attrsOf out.1) =
    if String.eqb (event.EventType e) ""
    then ValueString <$> event.Dimensions e !! SFxEventType
    else Some (ValueString (event.EventType e)).
Proof.
  intros Hc. destruct (Converts_inv e logger out Hc)
    as (props & propMap & attrs & _ & -> & _ & _ & Hnd & Hget).
  change (attrsOf _) with attrs. rewrite Hget.
  destruct marker_keys_distinct as (-> & _ & _ & _ & _ & ->).
  rewrite String.eqb_refl, andb_false_r, andb_true_r.
  destruct (String.eqb (event.EventType e) ""); cbn [negb]; by option_unions.
Qed.

Lemma Get_properties_marker (e : event.Event) (logger : zap.Logger)
    (out : plog.Logs * zap.Logger) :
  Converts e logger out ->
  exists props propMap ts attrs,
    ranges_over props (event.Properties e) /\
    out = (logsWith (plog.mkLogRecord ts attrs), logger ++ nilEntries props) /\
    NoDup propMap.*1 /\
    (forall k, Get k propMap = event.Properties e !! k ≫= attributeOf) /\
    forall m,
      propertiesOf out.1 = Some m <->
      event.Dimensions e !! SFxEventPropertiesKey = None /\
      event.Properties e ≠ ∅ /\ m = propMap.
Proof.
  intros Hc. destruct (Converts_inv e logger out Hc)
    as (props & propMap & attrs & Hr & -> & Hndp & Hgetp & Hnd & Hget).
  exists props, propMap, (Timestamp (unixNanoOf (event.Timestamp e))), attrs.
  repeat (split; [done|]).
  apply propertiesOf_logsWith. rewrite Hget.
  destruct marker_keys_distinct as (_ & -> & _ & -> & _ & _).
  rewrite String.eqb_refl, andb_true_r, andb_false_r. by option_unions.
Qed.

End MarkerKeys.

(** C1. Every result of converting a well-formed event holds exactly one
    attribute under the category marker key: the null value when the
    category is 0, and the integer equal to the category otherwise. *)
Theorem category_attribute_always_present (e : event.Event) (logger : zap.Logger)
    (out : plog.Logs * zap.Logger) :
  event.well_formed e ->
  Converts e logger out ->
  occurrences SFxEventCategoryKey (attrsOf out.1) = 1%nat /\
  (event.Category e = 0 -> Get SFxEventCategoryKey (attrsOf out.1) = Some ValueEmpty) /\
  (event.Category e <> 0 ->
   Get SFxEventCategoryKey (attrsOf out.1) = Some (ValueInt (event.Category e))).
Proof.
  intros Hwf Hc. destruct (Get_category_marker e logger out Hc) as [Hnd Hget].
  split; [|split].
  - apply occurrences_NoDup; [exact Hnd | by rewrite Hget].
  - intros H0. rewrite Hget, H0. done.
  - intros Hne. rewrite Hget, (category_in_int64 e Hwf).
    apply Z.eqb_neq in Hne. by rewrite Hne.
Qed.

Lemma category_attribute_always_present_witness :
  event.well_formed samples.scenarioB /\
  Converts samples.scenarioB [] (sfxEventToPDataLogs samples.scenarioB []) /\
  occurrences SFxEventCategoryKey
    (attrsOf (sfxEventToPDataLogs samples.scenarioB []).1) = 1%nat /\
  Get SFxEventCategoryKey (attrsOf (sfxEventToPDataLogs samples.scenarioB []).1)
    = Some (ValueInt 5).
Proof.
  split; [apply scenarioB_well_formed|].
  split; [apply Converts_sfxEventToPDataLogs|].
  destruct (category_attribute_always_present samples.scenarioB []
              (sfxEventToPDataLogs samples.scenarioB []) scenarioB_well_formed
              (Converts_sfxEventToPDataLogs _ _)) as (Hocc & _ & Hint).
  split; [exact Hocc|]. apply Hint. discriminate.
Defined.

(** C5, as stated, fails: with an empty event type and a dimension keyed by
    the type marker, the result does hold an attribute under that key. *)
Lemma type_attribute_iff_counterexample :
  event.EventType samples.typeDimension = ""%string /\
  Get SFxEventType (attrsOf (sfxEventToPDataLogs samples.typeDimension []).1)
    = Some (ValueString "z") /\
  ~ (is_Some (Get SFxEventType (attrsOf (sfxEventToPDataLogs samples.typeDimension []).1))
     <-> event.EventType samples.typeDimension <> ""%string).
Proof.
  assert (Hget : Get SFxEventType (attrsOf (sfxEventToPDataLogs samples.typeDimension []).1)
                 = Some (ValueString "z")) by (vm_compute; reflexivity).
  split; [reflexivity|]. split; [exact Hget|].
  intros [Hpresent _]. apply Hpresent; [by rewrite Hget | reflexivity].
Qed.

(** C5, amended. A non-empty event type is always written, as a string
    attribute equal to it, under the type marker key and exactly once; with
    an empty event type the key holds what a dimension of that key brings, if
    any.  So an attribute is present under the key exactly when the event
    type is non-empty or a dimension is keyed by the type marker. *)
Theorem type_attribute (e : event.Event) (logger : zap.Logger)
    (out : plog.Logs * zap.Logger) :
  Converts e logger out ->
  (event.EventType e <> ""%string ->
   Get SFxEventType (attrsOf out.1) = Some (ValueString (event.EventType e)) /\
   occurrences SFxEventType (attrsOf out.1) = 1%nat) /\
  (event.EventType e = ""%string ->
   Get SFxEventType (attrsOf out.1) = ValueString <$> event.Dimensions e !! SFxEventType) /\
  (is_Some (Get SFxEventType (attrsOf out.1)) <->
   event.EventType e <> ""%string \/ is_Some (event.Dimensions e !! SFxEventType)).
Proof.
  intros Hc. pose proof (Get_type_marker e logger out Hc) as Hget.
  destruct (Get_category_marker e logger out Hc) as [Hnd _].
  destruct (String.eqb_spec (event.EventType e) "") as [Heq|Hne].
  - split; [done|]. split; [done|]. rewrite Hget, fmap_is_Some.
    split; [by right | by intros [?|?]].
  - split; [|split].
    + intros _. split; [exact Hget|]. apply occurrences_NoDup; [exact Hnd | by rewrite Hget].
    + done.
    + rewrite Hget. split; [by left | by eexists].
Qed.

Lemma type_attribute_witness :
  Converts samples.scenarioB [] (sfxEventToPDataLogs samples.scenarioB []) /\
  Get SFxEventType (attrsOf (sfxEventToPDataLogs samples.scenarioB []).1)
    = Some (ValueString "alert").
Proof.
  split; [apply Converts_sfxEventToPDataLogs|].
  destruct (type_attribute samples.scenarioB [] (sfxEventToPDataLogs samples.scenarioB [])
              (Converts_sfxEventToPDataLogs _ _)) as (Htype & _ & _).
  apply Htype. discriminate.
Defined.

(** ** The timestamp *)
Section TimeFacts.

Lemma UnixNano_representable (t : time.Time) :
  time.representable t ->
  time.IsZero t = false /\
  Timestamp (time.UnixNano t) =
    (time.sec t - time.unixToInternal) * 1000000000 + time.nsec t.
Proof.
  unfold time.representable, time.IsZero, time.UnixNano, time.unixSec, time.internalToUnix.
  change time.unixToInternal with 62135596800.
  change (2 ^ 63) with 9223372036854775808.
  intros [Hn Hr]. split.
  - apply andb_false_iff. left. apply Z.eqb_neq. lia.
  - rewrite Z.add_opp_r.
    rewrite (int64_id (time.sec t - 62135596800)).
    + rewrite int64_id.
      * unfold Timestamp. rewrite uint64_id; [lia|].
        change (2 ^ 64) with 18446744073709551616. lia.
      * unfold GoInt.in_signed. change (2 ^ (64 - 1)) with 9223372036854775808. lia.
    + unfold GoInt.in_signed. change (2 ^ (64 - 1)) with 9223372036854775808. lia.
Qed.

End TimeFacts.

(** C6. The record's timestamp is 0 when the event's timestamp is the zero
    value and otherwise the event's [UnixNano], the nanoseconds since the
    Unix epoch, stored as a [pcommon.Timestamp]; for an instant from the
    epoch onwards that an [int64] of nanoseconds can hold it is exactly that
    number.  The zero value and the epoch itself both give 0. *)
Theorem timestamp_resolution (e : event.Event) (logger : zap.Logger)
    (out : plog.Logs * zap.Logger) :
  Converts e logger out ->
  exists ts,
    timestampOf out.1 = Some ts /\
    (time.IsZero (event.Timestamp e) = true -> ts = 0) /\
    (time.IsZero (event.Timestamp e) = false ->
     ts = Timestamp (time.UnixNano (event.Timestamp e))) /\
    (time.representable (event.Timestamp e) ->
     ts = (time.sec (event.Timestamp e) - time.unixToInternal) * 1000000000
          + time.nsec (event.Timestamp e)) /\
    (event.Timestamp e = time.zero \/ event.Timestamp e = time.Unix 0 0 -> ts = 0).
Proof.
  intros Hc. destruct (Converts_inv e logger out Hc)
    as (props & propMap & attrs & _ & -> & _).
  exists (Timestamp (unixNanoOf (event.Timestamp e))). split; [reflexivity|].
  unfold unixNanoOf. repeat split.
  - by intros ->.
  - by intros ->.
  - intros Hr. destruct (UnixNano_representable _ Hr) as [-> Hv]. exact Hv.
  - by intros [-> | ->].
Qed.

Lemma timestamp_resolution_witness :
  Converts samples.scenarioB [] (sfxEventToPDataLogs samples.scenarioB []) /\
  time.representable (event.Timestamp samples.scenarioB) /\
  timestampOf (sfxEventToPDataLogs samples.scenarioB []).1 = Some 1000000005.
Proof.
  split; [apply Converts_sfxEventToPDataLogs|].
  assert (Hr : time.representable (event.Timestamp samples.scenarioB))
    by (by vm_compute).
  split; [exact Hr|].
  destruct (timestamp_resolution samples.scenarioB [] (sfxEventToPDataLogs samples.scenarioB [])
              (Converts_sfxEventToPDataLogs _ _)) as (ts & Hts & _ & _ & Hrep & _).
  rewrite Hts, (Hrep Hr). reflexivity.
Defined.

(** C7, as stated, fails: a dimension keyed by the category marker is not
    in the result; the key keeps the category written before the loop. *)
Lemma dimensions_copied_counterexample :
  event.Dimensions samples.categoryDimension !! SFxEventCategoryKey = Some "x"%string /\
  Get SFxEventCategoryKey (attrsOf (sfxEventToPDataLogs samples.categoryDimension []).1)
    = Some (ValueInt 5) /\
  Get SFxEventCategoryKey (attrsOf (sfxEventToPDataLogs samples.categoryDimension []).1)
    <> Some (ValueString "x").
Proof.
  assert (Hget : Get SFxEventCategoryKey
                   (attrsOf (sfxEventToPDataLogs samples.categoryDimension []).1)
                 = Some (ValueInt 5)) by (vm_compute; reflexivity).
  split; [by vm_compute|]. split; [exact Hget|]. rewrite Hget. discriminate.
Qed.

(** C7, amended. Every dimension whose key is not the category marker, and
    not the type marker of an event that has a type, is in the result as a
    string attribute of that key and value, exactly once. *)
Theorem dimensions_copied (e : event.Event) (logger : zap.Logger)
    (out : plog.Logs * zap.Logger) (k v : string) :
  Converts e logger out ->
  event.Dimensions e !! k = Some v ->
  k <> SFxEventCategoryKey ->
  (k = SFxEventType -> event.EventType e = ""%string) ->
  Get k (attrsOf out.1) = Some (ValueString v) /\
  occurrences k (attrsOf out.1) = 1%nat.
Proof.
  intros Hc Hk Hcat Htype. destruct (Converts_inv e logger out Hc)
    as (props & propMap & attrs & _ & -> & _ & _ & Hnd & Hget).
  change (attrsOf _) with attrs.
  assert (Hv : Get k attrs = Some (ValueString v)).
  { rewrite Hget, Hk.
    assert (String.eqb SFxEventCategoryKey k = false) as -> by (apply String.eqb_neq; congruence).
    assert (negb (String.eqb (event.EventType e) "") && String.eqb SFxEventType k = false)
      as ->.
    { destruct (String.eqb_spec SFxEventType k) as [Heq|_]; [|apply andb_false_r].
      rewrite (Htype (eq_sym Heq)). reflexivity. }
    change (ValueString <$> Some v) with (Some (ValueString v)). by option_unions. }
  split; [exact Hv|]. apply occurrences_NoDup; [exact Hnd | by rewrite Hv].
Qed.

Lemma dimensions_copied_witness :
  Converts samples.scenarioA [] (sfxEventToPDataLogs samples.scenarioA []) /\
  event.Dimensions samples.scenarioA !! "host"%string = Some "a"%string /\
  Get "host" (attrsOf (sfxEventToPDataLogs samples.scenarioA []).1) = Some (ValueString "a") /\
  occurrences "host" (attrsOf (sfxEventToPDataLogs samples.scenarioA []).1) = 1%nat.
Proof.
  split; [apply Converts_sfxEventToPDataLogs|].
  assert (Hk : event.Dimensions samples.scenarioA !! "host"%string = Some "a"%string)
    by (by vm_compute).
  split; [exact Hk|].
  apply (dimensions_copied samples.scenarioA [] (sfxEventToPDataLogs samples.scenarioA [])
           "host" "a" (Converts_sfxEventToPDataLogs _ _) Hk); discriminate.
Defined.

(** C8, as stated, fails: the event type is written before the dimensions
    and a dimension of the same key, written later, does not replace it. *)
Lemma marker_collision_counterexample :
  event.EventType samples.typeCollision = "alert"%string /\
  event.Dimensions samples.typeCollision !! SFxEventType = Some "z"%string /\
  Get SFxEventType (attrsOf (sfxEventToPDataLogs samples.typeCollision []).1)
    = Some (ValueString "alert") /\
  Get SFxEventType (attrsOf (sfxEventToPDataLogs samples.typeCollision []).1)
    <> Some (ValueString "z").
Proof.
  assert (Hget : Get SFxEventType (attrsOf (sfxEventToPDataLogs samples.typeCollision []).1)
                 = Some (ValueString "alert")) by (vm_compute; reflexivity).
  split; [reflexivity|]. split; [by vm_compute|]. split; [exact Hget|].
  rewrite Hget. discriminate.
Qed.

(** C8, amended. When a dimension key collides with a marker key the first
    write wins, whatever the order of the dimensions: the category marker
    keeps the category, the type marker keeps the event type when there is
    one, and the dimension is not written. *)
Theorem marker_collision_first_write_wins (e : event.Event) (logger : zap.Logger)
    (out : plog.Logs * zap.Logger) (k v : string) :
  event.well_formed e ->
  Converts e logger out ->
  event.Dimensions e !! k = Some v ->
  (k = SFxEventCategoryKey ->
   Get k (attrsOf out.1) =
     Some (if event.Category e =? 0 then ValueEmpty else ValueInt (event.Category e)) /\
   occurrences k (attrsOf out.1) = 1%nat) /\
  (k = SFxEventType -> event.EventType e <> ""%string ->
   Get k (attrsOf out.1) = Some (ValueString (event.EventType e)) /\
   occurrences k (attrsOf out.1) = 1%nat).
Proof.
  intros Hwf Hc Hk. split.
  - intros ->. destruct (Get_category_marker e logger out Hc) as [Hnd Hget].
    rewrite (category_in_int64 e Hwf) in Hget. split; [exact Hget|].
    apply occurrences_NoDup; [exact Hnd | by rewrite Hget].
  - intros -> Hne. destruct (Get_category_marker e logger out Hc) as [Hnd _].
    pose proof (Get_type_marker e logger out Hc) as Hget.
    apply String.eqb_neq in Hne. rewrite Hne in Hget. split; [exact Hget|].
    apply occurrences_NoDup; [exact Hnd | by rewrite Hget].
Qed.

Lemma marker_collision_first_write_wins_witness :
  event.well_formed samples.typeCollision /\
  Converts samples.typeCollision [] (sfxEventToPDataLogs samples.typeCollision []) /\
  event.Dimensions samples.typeCollision !! SFxEventType = Some "z"%string /\
  Get SFxEventType (attrsOf (sfxEventToPDataLogs samples.typeCollision []).1)
    = Some (ValueString "alert").
Proof.
  split; [apply typeCollision_well_formed|].
  split; [apply Converts_sfxEventToPDataLogs|].
  assert (Hk : event.Dimensions samples.typeCollision !! SFxEventType = Some "z"%string)
    by (by vm_compute).
  split; [exact Hk|].
  destruct (marker_collision_first_write_wins samples.typeCollision []
              (sfxEventToPDataLogs samples.typeCollision []) SFxEventType "z"
              typeCollision_well_formed (Converts_sfxEventToPDataLogs _ _) Hk)
    as [_ Htype].
  apply Htype; [reflexivity | discriminate].
Defined.

(** ** The nested map of properties *)
Section NestedMap.

Lemma propertiesOf_Some (ld : plog.Logs) (m : Map) :
  propertiesOf ld = Some m <-> Get SFxEventPropertiesKey (attrsOf ld) = Some (ValueMap m).
Proof.
  unfold propertiesOf.
  destruct (Get SFxEventPropertiesKey (attrsOf ld)) as [[]|]; split; intros H;
    try discriminate H; by injection H as ->.
Qed.

Lemma occurrences_absent (k : string) (m : Map) :
  Get k m = None -> occurrences k m = 0%nat.
Proof. intros H. apply occurrences_notin. by apply Get_None_keys. Qed.

(** The type switch, case by case. *)
Lemma attributeOf_eq (a : dyn.any) :
  attributeOf a =
    match a with
    | dyn.Nil => None
    | dyn.String_ v => Some (ValueString v)
    | dyn.Bool v => Some (ValueBool v)
    | dyn.Int v | dyn.Int8 v | dyn.Int16 v | dyn.Int32 v => Some (ValueInt (GoInt.int64 v))
    | dyn.Int64 v => Some (ValueInt v)
    | dyn.Float32 v => Some (ValueDouble (GoFloat.float64_of_float32 v))
    | dyn.Float64 v => Some (ValueDouble v)
    | dyn.Other v => Some (ValueString (fmt.Sprintf_v v))
    end.
Proof. destruct a; reflexivity. Qed.

Lemma elem_of_nilProperties (e : event.Event) (k : string) :
  k ∈ nilProperties e <-> event.Properties e !! k = Some dyn.Nil.
Proof.
  unfold nilProperties. rewrite list_elem_of_In, in_map_iff. split.
  - intros ([k' a] & Hk & Hin). simpl in Hk. subst k'.
    apply filter_In in Hin as [Hin Hnil]. simpl in Hnil.
    destruct a; try discriminate.
    apply elem_of_map_to_list. by apply list_elem_of_In.
  - intros Hk. exists (k, dyn.Nil). split; [done|].
    apply filter_In. split; [|done].
    apply list_elem_of_In. by apply elem_of_map_to_list.
Qed.

End NestedMap.

(** C2, as stated, fails: with a dimension keyed by the properties marker
    the nested map is not inserted, although the event has properties; the
    key keeps the dimension's string. *)
Lemma properties_attribute_iff_counterexample :
  event.Properties samples.propertiesDimension ≠ ∅ /\
  Get SFxEventPropertiesKey (attrsOf (sfxEventToPDataLogs samples.propertiesDimension []).1)
    = Some (ValueString "y") /\
  propertiesOf (sfxEventToPDataLogs samples.propertiesDimension []).1 = None.
Proof.
  split; [|split].
  - intros Hempty.
    assert (Hl : event.Properties samples.propertiesDimension !! "a"%string = None)
      by (rewrite Hempty; apply lookup_empty).
    vm_compute in Hl. discriminate.
  - vm_compute. reflexivity.
  - vm_compute. reflexivity.
Qed.

(** C2, amended. The result holds a nested-map attribute under the
    properties marker key exactly when the event has properties and no
    dimension is keyed by the properties marker; it is then the only
    attribute of that key, and the nested map has exactly one entry for each
    property whose value is not nil and none for any other key.  Without
    properties, the key holds only what a dimension of that key brings. *)
Theorem properties_attribute (e : event.Event) (logger : zap.Logger)
    (out : plog.Logs * zap.Logger) :
  Converts e logger out ->
  (is_Some (propertiesOf out.1) <->
   event.Properties e ≠ ∅ /\ event.Dimensions e !! SFxEventPropertiesKey = None) /\
  (event.Properties e = ∅ ->
   Get SFxEventPropertiesKey (attrsOf out.1)
     = ValueString <$> event.Dimensions e !! SFxEventPropertiesKey) /\
  (forall m,
     propertiesOf out.1 = Some m ->
     occurrences SFxEventPropertiesKey (attrsOf out.1) = 1%nat /\
     (forall k a, event.Properties e !! k = Some a -> a <> dyn.Nil ->
                  occurrences k m = 1%nat) /\
     (forall k, event.Properties e !! k = Some dyn.Nil -> occurrences k m = 0%nat) /\
     (forall k, event.Properties e !! k = None -> occurrences k m = 0%nat)).
Proof.
  intros Hc. destruct (Get_category_marker e logger out Hc) as [Hnda _].
  destruct (Get_properties_marker e logger out Hc)
    as (props & propMap & ts & attrs & Hr & Hout & Hnd & Hget & Hprop).
  split; [|split].
  - split.
    + intros [m Hm]. apply Hprop in Hm. tauto.
    + intros [Hp Hd]. exists propMap. by apply Hprop.
  - intros Hempty. destruct (Converts_inv e logger out Hc)
      as (props' & propMap' & attrs' & _ & -> & _ & _ & _ & Hgeta).
    change (attrsOf _) with attrs'. rewrite Hgeta, Hempty.
    destruct marker_keys_distinct as (_ & -> & _ & -> & _ & _).
    rewrite map_size_empty, andb_false_r.
    change (0 <? Z.of_nat 0) with false. cbn [andb]. by option_unions.
  - intros m Hm. pose proof Hm as Hm'. apply Hprop in Hm' as (_ & _ & ->).
    split; [|split; [|split]].
    + apply occurrences_NoDup; [exact Hnda|].
      apply propertiesOf_Some in Hm. by rewrite Hm.
    + intros k a Hk Hne. apply occurrences_NoDup; [exact Hnd|].
      rewrite Hget, Hk. simpl.
      destruct (attributeOf a) eqn:Ha; [done|]. by apply attributeOf_None in Ha.
    + intros k Hk. apply occurrences_absent. by rewrite Hget, Hk.
    + intros k Hk. apply occurrences_absent. by rewrite Hget, Hk.
Qed.

Lemma properties_attribute_witness :
  Converts samples.scenarioB [] (sfxEventToPDataLogs samples.scenarioB []) /\
  is_Some (propertiesOf (sfxEventToPDataLogs samples.scenarioB []).1).
Proof.
  split; [apply Converts_sfxEventToPDataLogs|].
  destruct (properties_attribute samples.scenarioB [] (sfxEventToPDataLogs samples.scenarioB [])
              (Converts_sfxEventToPDataLogs _ _)) as (Hiff & _).
  apply Hiff. split; [|by vm_compute].
  intros Hempty.
  assert (Hl : event.Properties samples.scenarioB !! "p1"%string = None)
    by (rewrite Hempty; apply lookup_empty).
  vm_compute in Hl. discriminate.
Defined.

(** C3. In the nested map of a result for a well-formed event, the entry of
    a property follows the dynamic type of its value: a string gives a string
    attribute of the same content, a boolean a boolean attribute, a signed
    integer of any width the integer attribute of the same number, a
    [float32] the double attribute of the same number, a [float64] the double
    attribute itself, and any other type the string attribute of its [%v]
    text.  (The nested map is in the result as soon as there are properties
    and no dimension takes the properties marker key.) *)
Theorem property_classification (e : event.Event) (logger : zap.Logger)
    (out : plog.Logs * zap.Logger) :
  event.well_formed e ->
  Converts e logger out ->
  (event.Dimensions e !! SFxEventPropertiesKey = None -> event.Properties e ≠ ∅ ->
   is_Some (propertiesOf out.1)) /\
  forall m,
    propertiesOf out.1 = Some m ->
    forall k a,
      event.Properties e !! k = Some a ->
      match a with
      | dyn.Nil => Get k m = None
      | dyn.String_ v => Get k m = Some (ValueString v)
      | dyn.Bool v => Get k m = Some (ValueBool v)
      | dyn.Int v | dyn.Int8 v | dyn.Int16 v | dyn.Int32 v | dyn.Int64 v =>
          Get k m = Some (ValueInt v)
      | dyn.Float32 v =>
          exists d, Get k m = Some (ValueDouble d) /\
                    GoFloat.is_float64 d /\ GoFloat.same_number v d
      | dyn.Float64 v => Get k m = Some (ValueDouble v)
      | dyn.Other v => Get k m = Some (ValueString (fmt.Sprintf_v v))
      end.
Proof.
  intros [_ Hwf] Hc.
  destruct (Get_properties_marker e logger out Hc)
    as (props & propMap & ts & attrs & Hr & Hout & Hnd & Hget & Hprop).
  split.
  - intros Hd Hp. exists propMap. by apply Hprop.
  - intros m Hm k a Hk. apply Hprop in Hm as (_ & _ & ->).
    specialize (Hwf k a Hk). rewrite Hget, Hk. simpl. rewrite attributeOf_eq.
    destruct a as [|v|v|v|v|v|v|v|v|v|v]; simpl in Hwf; try reflexivity.
    + by rewrite int64_id.
    + rewrite int64_id; [done|]. revert Hwf. apply in_signed_mono. lia.
    + rewrite int64_id; [done|]. revert Hwf. apply in_signed_mono. lia.
    + rewrite int64_id; [done|]. revert Hwf. apply in_signed_mono. lia.
    + exists (GoFloat.float64_of_float32 v). split; [done|].
      by apply float64_of_float32_exact.
Qed.

Lemma property_classification_witness :
  event.well_formed samples.everyKind /\
  Converts samples.everyKind [] (sfxEventToPDataLogs samples.everyKind []) /\
  exists m,
    propertiesOf (sfxEventToPDataLogs samples.everyKind []).1 = Some m /\
    Get "s" m = Some (ValueString "text") /\
    Get "i8" m = Some (ValueInt (-128)) /\
    Get "st" m = Some (ValueString "{1 2}").
Proof.
  split; [apply everyKind_well_formed|].
  split; [apply Converts_sfxEventToPDataLogs|].
  destruct (property_classification samples.everyKind []
              (sfxEventToPDataLogs samples.everyKind []) everyKind_well_formed
              (Converts_sfxEventToPDataLogs _ _)) as [_ Hcases].
  eexists. split; [vm_compute; reflexivity|].
  match goal with
  | |- Get _ ?m = _ /\ _ =>
      assert (Hm : propertiesOf (sfxEventToPDataLogs samples.everyKind []).1 = Some m)
        by (vm_compute; reflexivity)
  end.
  split; [|split].
  - apply (Hcases _ Hm "s"%string (dyn.String_ "text")). by vm_compute.
  - apply (Hcases _ Hm "i8"%string (dyn.Int8 (-128))). by vm_compute.
  - apply (Hcases _ Hm "st"%string (dyn.Other (dyn.Opaque "{1 2}"))). by vm_compute.
Defined.

(** C4. A property whose stored value is nil leaves no entry in the nested
    map, and the conversion writes for it exactly one entry to the logger, at
    debug level, naming the property key; no other entry is written, and the
    record is returned all the same. *)
Theorem nil_property_dropped_and_logged (e : event.Event) (logger : zap.Logger)
    (out : plog.Logs * zap.Logger) :
  Converts e logger out ->
  exists added,
    out.2 = logger ++ added /\
    Forall (fun en => zap.EntryLevel en = zap.DebugLevel) added /\
    length added = length (nilProperties e) /\
    (forall k, event.Properties e !! k = Some dyn.Nil ->
       length (List.filter (mentions k) added) = 1%nat /\
       forall m, propertiesOf out.1 = Some m ->
                 Get k m = None /\ occurrences k m = 0%nat) /\
    (forall k, event.Properties e !! k <> Some dyn.Nil ->
       length (List.filter (mentions k) added) = 0%nat) /\
    is_Some (recordOf out.1) /\
    (event.Dimensions e !! SFxEventPropertiesKey = None -> event.Properties e ≠ ∅ ->
     is_Some (propertiesOf out.1)).
Proof.
  intros Hc.
  destruct (Get_properties_marker e logger out Hc)
    as (props & propMap & ts & attrs & Hr & Hout & Hnd & Hget & Hprop).
  exists (nilEntries props).
  assert (Hcount : forall k,
    length (List.filter (mentions k) (nilEntries props)) =
      match event.Properties e !! k with
      | Some a => if isNil a then 1%nat else 0%nat
      | None => 0%nat
      end).
  { intros k. rewrite (nilEntries_mentions k props (ranges_over_NoDup _ _ Hr)).
    by rewrite (firstOf_ranges k props _ Hr). }
  split; [by rewrite Hout|]. split; [apply nilEntries_level|].
  split; [by apply nilEntries_length|].
  split; [|split; [|split]].
  - intros k Hk. split; [by rewrite Hcount, Hk|].
    intros m Hm. apply Hprop in Hm as (_ & _ & ->).
    assert (Get k propMap = None) by (by rewrite Hget, Hk).
    split; [done | by apply occurrences_absent].
  - intros k Hk. rewrite Hcount.
    destruct (event.Properties e !! k) as [[]|]; done.
  - rewrite Hout. by eexists.
  - intros Hd Hp. exists propMap. by apply Hprop.
Qed.

Lemma nil_property_dropped_and_logged_witness :
  Converts samples.scenarioB [] (sfxEventToPDataLogs samples.scenarioB []) /\
  (sfxEventToPDataLogs samples.scenarioB []).2 = [nilEntry "p2"] /\
  exists added,
    (sfxEventToPDataLogs samples.scenarioB []).2 = [] ++ added /\
    length (List.filter (mentions "p2") added) = 1%nat.
Proof.
  split; [apply Converts_sfxEventToPDataLogs|].
  split; [by vm_compute|].
  destruct (nil_property_dropped_and_logged samples.scenarioB []
              (sfxEventToPDataLogs samples.scenarioB [])
              (Converts_sfxEventToPDataLogs _ _))
    as (added & Hout & _ & _ & Hnil & _).
  exists added. split; [exact Hout|].
  apply (Hnil "p2"%string). by vm_compute.
Defined.

(** C10. A property whose value is an unsigned integer of any width ([uint],
    [uint8], [uint16], [uint32], [uint64], [uintptr]) gets no integer
    attribute: its entry in the nested map is the string attribute holding
    the number in base 10. *)
Theorem unsigned_property_rendered_as_text (e : event.Event) (logger : zap.Logger)
    (out : plog.Logs * zap.Logger) :
  Converts e logger out ->
  (event.Dimensions e !! SFxEventPropertiesKey = None -> event.Properties e ≠ ∅ ->
   is_Some (propertiesOf out.1)) /\
  forall m,
    propertiesOf out.1 = Some m ->
    forall k a n,
      event.Properties e !! k = Some a ->
      dyn.is_unsigned a = Some n ->
      Get k m = Some (ValueString (fmt.FormatUint n)) /\
      fmt.ParseUint (fmt.FormatUint n) = Some n /\
      forall z, Get k m <> Some (ValueInt z).
Proof.
  intros Hc.
  destruct (Get_properties_marker e logger out Hc)
    as (props & propMap & ts & attrs & Hr & Hout & Hnd & Hget & Hprop).
  split.
  - intros Hd Hp. exists propMap. by apply Hprop.
  - intros m Hm k a n Hk Hu. apply Hprop in Hm as (_ & _ & ->).
    assert (Hv : Get k propMap = Some (ValueString (fmt.FormatUint n))).
    { rewrite Hget, Hk. simpl. rewrite attributeOf_eq.
      destruct a as [| | | | | | | | | |[]]; try discriminate Hu;
        by injection Hu as ->. }
    split; [exact Hv|]. split; [apply ParseUint_FormatUint|].
    intros z. rewrite Hv. discriminate.
Qed.

Lemma unsigned_property_rendered_as_text_witness :
  Converts samples.everyKind [] (sfxEventToPDataLogs samples.everyKind []) /\
  exists m,
    propertiesOf (sfxEventToPDataLogs samples.everyKind []).1 = Some m /\
    Get "u8" m = Some (ValueString "200") /\
    Get "u64" m = Some (ValueString "18446744073709551615").
Proof.
  split; [apply Converts_sfxEventToPDataLogs|].
  destruct (unsigned_property_rendered_as_text samples.everyKind []
              (sfxEventToPDataLogs samples.everyKind [])
              (Converts_sfxEventToPDataLogs _ _)) as [_ Hcases].
  eexists. split; [vm_compute; reflexivity|].
  match goal with
  | |- Get _ ?m = _ /\ _ =>
      assert (Hm : propertiesOf (sfxEventToPDataLogs samples.everyKind []).1 = Some m)
        by (vm_compute; reflexivity)
  end.
  split.
  - apply (Hcases _ Hm "u8"%string (dyn.Other (dyn.Uint8 200)) 200%N); by vm_compute.
  - apply (Hcases _ Hm "u64"%string (dyn.Other (dyn.Uint64 (2 ^ 64 - 1)))
             (2 ^ 64 - 1)%N); by vm_compute.
Defined.


(** ** The call through the pointers *)
Section Pointers.

Lemma insertProperty_ptr_Some (lg : zap.Logger) (propMap : Map) (k : string)
    (a : dyn.any) :
  converter_ptr.insertProperty (Some lg, propMap) k a =
    runtime.Returns (Some (insertProperty (lg, propMap) k a).1,
                     (insertProperty (lg, propMap) k a).2).
Proof. destruct a; reflexivity. Qed.

Lemma rangeProperties_Some (props : list (string * dyn.any)) (lg : zap.Logger)
    (propMap : Map) :
  converter_ptr.rangeProperties props (Some lg, propMap) =
    runtime.Returns
      (Some (fold_left (fun st kv => insertProperty st kv.1 kv.2) props (lg, propMap)).1,
       (fold_left (fun st kv => insertProperty st kv.1 kv.2) props (lg, propMap)).2).
Proof.
  revert lg propMap. induction props as [|[k a] props IH]; intros lg propMap.
  - reflexivity.
  - cbn [converter_ptr.rangeProperties fold_left fst snd].
    rewrite insertProperty_ptr_Some.
    destruct (insertProperty (lg, propMap) k a) as [lg' propMap'].
    apply IH.
Qed.

Lemma sfxEventToPDataLogs_ptr_Some (dims : list (string * string))
    (props : list (string * dyn.any)) (e : event.Event) (lg : zap.Logger) :
  converter_ptr.sfxEventToPDataLogs dims props (Some e) (Some lg) =
    runtime.Returns ((sfxEventToPDataLogsIn dims props e lg).1,
                     Some (sfxEventToPDataLogsIn dims props e lg).2).
Proof.
  unfold converter_ptr.sfxEventToPDataLogs, sfxEventToPDataLogsIn,
    converter_ptr.insertProperties, insertProperties,
    converter_ptr.buildPropMap, buildPropMap.
  cbn [newLogs runtime.deref mbind outcome_bind runtime.bind].
  destruct (0 <? Z.of_nat (size (event.Properties e))); [|reflexivity].
  rewrite rangeProperties_Some.
  cbn [mbind outcome_bind runtime.bind].
  destruct (fold_left _ props _) as [lg' propMap]. reflexivity.
Qed.

End Pointers.

(** C9. Called with an event and a logger (neither pointer nil), the
    converter returns, for every event, whatever the order in which the two
    loops visit the maps: nothing in it panics, not on a nil-valued property
    and not on a value of a type the switch has no case for.  What it
    returns is a container of one resource, one scope and one record, and
    the record is populated: it has the timestamp, the category marker, the
    type marker of an event with a type, every dimension whose key does not
    collide with a marker written before it, and, for an event with
    properties and no dimension on the properties marker, the nested map
    with the entry of every property (none for a nil one). *)
Theorem conversion_total (e : event.Event) (logger : zap.Logger)
    (dims : list (string * string)) (props : list (string * dyn.any)) :
  ranges_over dims (event.Dimensions e) ->
  ranges_over props (event.Properties e) ->
  exists lr added,
    converter_ptr.sfxEventToPDataLogs dims props (Some e) (Some logger)
      = runtime.Returns (logsWith lr, Some (logger ++ added)) /\
    length added = length (nilProperties e) /\
    plog.Timestamp lr = Timestamp (unixNanoOf (event.Timestamp e)) /\
    Get SFxEventCategoryKey (plog.Attributes lr)
      = Some (if event.Category e =? 0 then ValueEmpty
              else ValueInt (GoInt.int64 (event.Category e))) /\
    (event.EventType e <> ""%string ->
     Get SFxEventType (plog.Attributes lr) = Some (ValueString (event.EventType e))) /\
    (forall k v,
       event.Dimensions e !! k = Some v ->
       k <> SFxEventCategoryKey ->
       (k = SFxEventType -> event.EventType e = ""%string) ->
       Get k (plog.Attributes lr) = Some (ValueString v)) /\
    (event.Properties e ≠ ∅ ->
     event.Dimensions e !! SFxEventPropertiesKey = None ->
     exists m,
       Get SFxEventPropertiesKey (plog.Attributes lr) = Some (ValueMap m) /\
       forall k a,
         event.Properties e !! k = Some a ->
         Get k m =
           match a with
           | dyn.Nil => None
           | dyn.String_ v => Some (ValueString v)
           | dyn.Bool v => Some (ValueBool v)
           | dyn.Int v | dyn.Int8 v | dyn.Int16 v | dyn.Int32 v =>
               Some (ValueInt (GoInt.int64 v))
           | dyn.Int64 v => Some (ValueInt v)
           | dyn.Float32 v => Some (ValueDouble (GoFloat.float64_of_float32 v))
           | dyn.Float64 v => Some (ValueDouble v)
           | dyn.Other v => Some (ValueString (fmt.Sprintf_v v))
           end).
Proof.
  intros Hdims Hprops.
  destruct (run_spec dims props e logger Hdims Hprops)
    as (propMap & attrs & _ & _ & Hgetp & Hrun & _ & Hget).
  exists (plog.mkLogRecord (Timestamp (unixNanoOf (event.Timestamp e))) attrs),
    (nilEntries props).
  split; [by rewrite sfxEventToPDataLogs_ptr_Some, Hrun|].
  split; [by apply nilEntries_length|].
  split; [reflexivity|]. cbn [plog.Attributes].
  destruct marker_keys_distinct as (Hct & Hcp & Htc & Htp & Hpc & Hpt).
  split; [|split; [|split]].
  - rewrite Hget, String.eqb_refl. by option_unions.
  - intros Hne. apply String.eqb_neq in Hne.
    rewrite Hget, Hct, Hne, String.eqb_refl. cbn [negb andb]. by option_unions.
  - intros k v Hk Hcat Htype. rewrite Hget, Hk.
    assert (String.eqb SFxEventCategoryKey k = false) as ->
      by (apply String.eqb_neq; congruence).
    assert (negb (String.eqb (event.EventType e) "") && String.eqb SFxEventType k = false)
      as ->.
    { destruct (String.eqb_spec SFxEventType k) as [Heq|_]; [|apply andb_false_r].
      rewrite (Htype (eq_sym Heq)). reflexivity. }
    change (ValueString <$> Some v) with (Some (ValueString v)). by option_unions.
  - intros Hp Hd. exists propMap. split.
    + apply size_pos_nonempty in Hp.
      rewrite Hget, Hcp, Htp, Hd, Hp, String.eqb_refl, andb_false_r.
      cbn [andb]. by option_unions.
    + intros k a Hk. rewrite Hgetp, Hk. simpl. apply attributeOf_eq.
Qed.

Lemma conversion_total_witness :
  ranges_over (map_to_list (event.Dimensions samples.everyKind))
    (event.Dimensions samples.everyKind) /\
  ranges_over (map_to_list (event.Properties samples.everyKind))
    (event.Properties samples.everyKind) /\
  exists lr added,
    converter_ptr.sfxEventToPDataLogs
      (map_to_list (event.Dimensions samples.everyKind))
      (map_to_list (event.Properties samples.everyKind))
      (Some samples.everyKind) (Some [])
      = runtime.Returns (logsWith lr, Some ([] ++ added)) /\
    length added = 1%nat /\
    Get "host" (plog.Attributes lr) = Some (ValueString "a").
Proof.
  split; [apply ranges_over_map_to_list|]. split; [apply ranges_over_map_to_list|].
  destruct (conversion_total samples.everyKind []
              (map_to_list (event.Dimensions samples.everyKind))
              (map_to_list (event.Properties samples.everyKind))
              (ranges_over_map_to_list _) (ranges_over_map_to_list _))
    as (lr & added & Hrun & Hlen & _ & _ & _ & Hdim & _).
  exists lr, added. split; [exact Hrun|]. split; [exact Hlen|].
  apply Hdim; [by vm_compute | discriminate | discriminate].
Defined.

(** * Further properties of the converter *)

(** ** Keys and pairs of an attribute map *)
Section MapKeys.

Lemma Get_firstOf (k : string) (m : Map) : Get k m = firstOf k m.
Proof. induction m as [|[k1 v1] m IH]; simpl; [done | by rewrite IH]. Qed.

Lemma Get_is_Some_keys (k : string) (m : Map) : is_Some (Get k m) <-> k ∈ m.*1.
Proof.
  destruct (Get k m) eqn:Hk.
  - split; [intros _ | by eexists].
    destruct (decide (k ∈ m.*1)) as [|Hn]; [done|].
    apply Get_None_keys in Hn. congruence.
  - split; [by intros [? ?] | intros Hin]. by apply Get_None_keys in Hk.
Qed.

Lemma Get_Some_elem (k : string) (v : Value) (m : Map) :
  NoDup m.*1 -> (k, v) ∈ m <-> Get k m = Some v.
Proof.
  intros Hnd. rewrite Get_firstOf. split.
  - by apply firstOf_elem.
  - clear Hnd. induction m as [|[k1 v1] m IH]; simpl; [done|].
    destruct (String.eqb_spec k1 k) as [->|_].
    + intros [= ->]. apply list_elem_of_here.
    + intros H. apply list_elem_of_further. by apply IH.
Qed.

Lemma is_Some_if {A : Type} (b : bool) (x : A) :
  is_Some (if b then Some x else None) <-> b = true.
Proof.
  destruct b; split; intros H; done.
Qed.

Lemma Insert_extends (k : string) (v : Value) (m : Map) :
  exists l, Insert k v m = m ++ l /\
            (Get k m = None -> l = [(k, v)]) /\ (is_Some (Get k m) -> l = []).
Proof.
  unfold Insert. destruct (Get k m) eqn:Hk.
  - exists []. rewrite app_nil_r. split; [done|]. split; [done | done].
  - exists [(k, v)]. split; [done|]. split; [done | by intros [? ?]].
Qed.

Lemma insertDimensions_extends (dims : list (string * string)) (attrs : Map) :
  exists l, insertDimensions dims attrs = attrs ++ l.
Proof.
  unfold insertDimensions. revert attrs.
  induction dims as [|[k v] dims IH]; intros attrs; simpl.
  - exists []. by rewrite app_nil_r.
  - destruct (IH (InsertString k v attrs)) as [l Hl].
    destruct (Insert_extends k (ValueString v) attrs) as (l' & Hl' & _).
    exists (l' ++ l). unfold InsertString in *. by rewrite Hl, Hl', <- app_assoc.
Qed.

End MapKeys.

(** Shared form of the key description, for the results below. *)
Lemma Converts_keys (e : event.Event) (logger : zap.Logger)
    (out : plog.Logs * zap.Logger) :
  Converts e logger out ->
  NoDup (attrsOf out.1).*1 /\
  forall k,
    k ∈ (attrsOf out.1).*1 <->
    k = SFxEventCategoryKey \/
    (k = SFxEventType /\ event.EventType e <> ""%string) \/
    is_Some (event.Dimensions e !! k) \/
    (k = SFxEventPropertiesKey /\ event.Properties e ≠ ∅).
Proof.
  intros Hc. destruct (Converts_inv e logger out Hc)
    as (props & propMap & attrs & _ & -> & _ & _ & Hnd & Hget).
  change (attrsOf _) with attrs. split; [exact Hnd|].
  intros k. rewrite <- Get_is_Some_keys, Hget, !union_is_Some, fmap_is_Some.
  rewrite !is_Some_if, !andb_true_iff, negb_true_iff, !String.eqb_eq, String.eqb_neq.
  rewrite size_pos_nonempty. intuition congruence.
Qed.

(** X1. The keys of a result are unique and are exactly: the category
    marker, the type marker when the event has a type, the dimension keys,
    and the properties marker when the event has properties. *)
Theorem attribute_keys (e : event.Event) (logger : zap.Logger)
    (out : plog.Logs * zap.Logger) :
  Converts e logger out ->
  NoDup (attrsOf out.1).*1 /\
  forall k,
    k ∈ (attrsOf out.1).*1 <->
    k = SFxEventCategoryKey \/
    (k = SFxEventType /\ event.EventType e <> ""%string) \/
    is_Some (event.Dimensions e !! k) \/
    (k = SFxEventPropertiesKey /\ event.Properties e ≠ ∅).
Proof. apply Converts_keys. Qed.

Lemma attribute_keys_witness :
  Converts samples.scenarioB [] (sfxEventToPDataLogs samples.scenarioB []) /\
  (attrsOf (sfxEventToPDataLogs samples.scenarioB []).1).*1
    = [SFxEventCategoryKey; SFxEventType; SFxEventPropertiesKey] /\
  NoDup (attrsOf (sfxEventToPDataLogs samples.scenarioB []).1).*1.
Proof.
  split; [apply Converts_sfxEventToPDataLogs|]. split; [by vm_compute|].
  apply (attribute_keys samples.scenarioB [] (sfxEventToPDataLogs samples.scenarioB [])
           (Converts_sfxEventToPDataLogs _ _)).
Defined.

(** ** Counting attributes *)
Section Counting.

Lemma elem_of_map_keys {V : Type} (m : gmap string V) (k : string) :
  k ∈ (map_to_list m).*1 <-> is_Some (m !! k).
Proof.
  rewrite list_elem_of_fmap. split.
  - intros ([k' v] & -> & Hin). apply elem_of_map_to_list in Hin. by eexists.
  - intros [v Hv]. exists (k, v). split; [done|]. by apply elem_of_map_to_list.
Qed.

Lemma attrsCapacityOf_eq (e : event.Event) :
  attrsCapacityOf e =
    2 + Z.of_nat (size (event.Dimensions e))
    + (if 0 <? Z.of_nat (size (event.Properties e)) then 1 else 0).
Proof.
  unfold attrsCapacityOf. destruct (0 <? Z.of_nat (size (event.Properties e))); lia.
Qed.

End Counting.

(** X2. The capacity computed before the attributes are written is never
    exceeded: a result has at most [2 + len(Dimensions)] attributes, plus one
    when there are properties.  When no dimension is keyed by a marker key
    the count is exactly that capacity for an event with a type, and one
    less for an event without. *)
Theorem attribute_count_within_capacity (e : event.Event) (logger : zap.Logger)
    (out : plog.Logs * zap.Logger) :
  Converts e logger out ->
  Z.of_nat (length (attrsOf out.1)) <= attrsCapacityOf e /\
  (event.Dimensions e !! SFxEventCategoryKey = None ->
   event.Dimensions e !! SFxEventType = None ->
   event.Dimensions e !! SFxEventPropertiesKey = None ->
   Z.of_nat (length (attrsOf out.1)) =
     if String.eqb (event.EventType e) "" then attrsCapacityOf e - 1
     else attrsCapacityOf e).
Proof.
  intros Hc. destruct (Converts_keys e logger out Hc) as [Hnd Hkeys].
  rewrite attrsCapacityOf_eq, <- (length_map_to_list (event.Dimensions e)).
  rewrite <- (length_fmap fst (attrsOf out.1)),
          <- (length_fmap fst (map_to_list (event.Dimensions e))).
  set (dkeys := (map_to_list (event.Dimensions e)).*1).
  set (pkey := if 0 <? Z.of_nat (size (event.Properties e))
               then [SFxEventPropertiesKey] else []).
  assert (Hpkey : forall k, k ∈ pkey <->
            k = SFxEventPropertiesKey /\ event.Properties e ≠ ∅).
  { intros k. unfold pkey. rewrite <- size_pos_nonempty.
    destruct (0 <? Z.of_nat (size (event.Properties e))).
    - rewrite list_elem_of_singleton. tauto.
    - split; [intros H; by apply elem_of_nil in H | by intros [_ ?]]. }
  assert (Hplen : Z.of_nat (length pkey) =
            if 0 <? Z.of_nat (size (event.Properties e)) then 1 else 0).
  { unfold pkey. by destruct (0 <? Z.of_nat (size (event.Properties e))). }
  split.
  - assert (Hsub : (attrsOf out.1).*1 ⊆+ [SFxEventCategoryKey; SFxEventType] ++ dkeys ++ pkey).
    { apply NoDup_submseteq; [exact Hnd|]. intros k Hk. apply Hkeys in Hk.
      rewrite !elem_of_app, !elem_of_cons, Hpkey. unfold dkeys.
      rewrite elem_of_map_keys. tauto. }
    apply submseteq_length in Hsub. rewrite !length_app in Hsub. simpl in Hsub. lia.
  - intros Hdc Hdt Hdp.
    set (tkey := if String.eqb (event.EventType e) "" then [] else [SFxEventType]).
    assert (Htkey : forall k, k ∈ tkey <->
              k = SFxEventType /\ event.EventType e <> ""%string).
    { intros k. unfold tkey. destruct (String.eqb_spec (event.EventType e) "").
      - split; [intros H; by apply elem_of_nil in H | by intros [_ ?]].
      - rewrite list_elem_of_singleton. tauto. }
    assert (Hperm : (attrsOf out.1).*1 ≡ₚ [SFxEventCategoryKey] ++ tkey ++ dkeys ++ pkey).
    { apply NoDup_Permutation; [exact Hnd| |].
      - assert (Hnotd : forall k, event.Dimensions e !! k = None -> k ∉ dkeys).
        { intros k Hk Hin. apply elem_of_map_keys in Hin. rewrite Hk in Hin.
          by destruct Hin. }
        apply NoDup_app. split; [apply NoDup_singleton|]. split.
        + intros k Hk. apply list_elem_of_singleton in Hk as ->.
          rewrite !elem_of_app, Htkey, Hpkey. intros [[Hk _]|[Hk|[Hk _]]].
          * discriminate Hk.
          * by apply (Hnotd _ Hdc).
          * discriminate Hk.
        + apply NoDup_app. split.
          { unfold tkey. destruct (String.eqb (event.EventType e) "");
              [constructor | apply NoDup_singleton]. }
          split.
          { intros k Hk. apply Htkey in Hk as [-> _].
            rewrite elem_of_app, Hpkey. intros [Hk|[Hk _]].
            - by apply (Hnotd _ Hdt).
            - discriminate Hk. }
          apply NoDup_app. split; [apply NoDup_fst_map_to_list|]. split.
          { intros k Hk. rewrite Hpkey. intros [-> _]. by apply (Hnotd _ Hdp). }
          unfold pkey. destruct (0 <? Z.of_nat (size (event.Properties e)));
            [apply NoDup_singleton | constructor].
      - intros k. rewrite Hkeys, !elem_of_app, list_elem_of_singleton, Htkey, Hpkey.
        unfold dkeys. rewrite elem_of_map_keys. tauto. }
    apply Permutation_length in Hperm. rewrite Hperm, !length_app.
    unfold tkey. destruct (String.eqb (event.EventType e) ""); simpl length; lia.
Qed.

Lemma attribute_count_within_capacity_witness :
  Converts samples.everyKind [] (sfxEventToPDataLogs samples.everyKind []) /\
  attrsCapacityOf samples.everyKind = 4 /\
  Z.of_nat (length (attrsOf (sfxEventToPDataLogs samples.everyKind []).1)) = 4.
Proof.
  split; [apply Converts_sfxEventToPDataLogs|]. split; [by vm_compute|].
  destruct (attribute_count_within_capacity samples.everyKind []
              (sfxEventToPDataLogs samples.everyKind [])
              (Converts_sfxEventToPDataLogs _ _)) as [_ Hexact].
  rewrite Hexact; by vm_compute.
Defined.

(** ** The order of the attributes *)
Section Order.

Lemma run_attrs (dims : list (string * string)) (props : list (string * dyn.any))
    (e : event.Event) (logger : zap.Logger) :
  attrsOf (sfxEventToPDataLogsIn dims props e logger).1 =
    if 0 <? Z.of_nat (size (event.Properties e))
    then Insert SFxEventPropertiesKey (ValueMap (buildPropMap e props logger).2)
           (insertDimensions dims (insertEventType e (insertCategory e [])))
    else insertDimensions dims (insertEventType e (insertCategory e [])).
Proof.
  unfold sfxEventToPDataLogsIn, newLogs, insertProperties, EnsureCapacity, Clear.
  cbn [plog.Attributes plog.NewLogRecord plog.SetTimestamp plog.SetAttributes
         plog.Timestamp pcommon.NewMap].
  destruct (0 <? Z.of_nat (size (event.Properties e))); [|reflexivity].
  destruct (buildPropMap e props logger) as [lg pm]. reflexivity.
Qed.

Lemma markers_first (e : event.Event) :
  insertEventType e (insertCategory e []) =
    (SFxEventCategoryKey,
     if event.Category e =? 0 then ValueEmpty
     else ValueInt (GoInt.int64 (event.Category e)))
    :: (if String.eqb (event.EventType e) "" then []
        else [(SFxEventType, ValueString (event.EventType e))]).
Proof.
  unfold insertEventType, insertCategory, InsertNull, InsertInt, InsertString.
  destruct (event.Category e =? 0);
    destruct (String.eqb (event.EventType e) ""); reflexivity.
Qed.

End Order.

(** X3. The attributes come in the order they are written: the category
    marker is always the first attribute of a result, the type marker the
    second when the event has a type, and the nested map of properties, when
    it is stored, the last. *)
Theorem attribute_order (e : event.Event) (logger : zap.Logger)
    (out : plog.Logs * zap.Logger) :
  Converts e logger out ->
  (exists rest,
     attrsOf out.1 =
       (SFxEventCategoryKey,
        if event.Category e =? 0 then ValueEmpty
        else ValueInt (GoInt.int64 (event.Category e)))
       :: (if String.eqb (event.EventType e) "" then []
           else [(SFxEventType, ValueString (event.EventType e))]) ++ rest) /\
  (forall m, propertiesOf out.1 = Some m ->
             last (attrsOf out.1) = Some (SFxEventPropertiesKey, ValueMap m)).
Proof.
  intros Hc. pose proof Hc as (dims & props & Hdims & Hprops & Hout).
  pose proof (run_attrs dims props e logger) as Hattrs. rewrite <- Hout in Hattrs.
  destruct (insertDimensions_extends dims (insertEventType e (insertCategory e [])))
    as [l Hl].
  split.
  - rewrite Hattrs, Hl, markers_first.
    destruct (0 <? Z.of_nat (size (event.Properties e))).
    + destruct (Insert_extends SFxEventPropertiesKey
                  (ValueMap (buildPropMap e props logger).2)
                  (((SFxEventCategoryKey,
                     if event.Category e =? 0 then ValueEmpty
                     else ValueInt (GoInt.int64 (event.Category e)))
                    :: (if String.eqb (event.EventType e) "" then []
                        else [(SFxEventType, ValueString (event.EventType e))])) ++ l))
        as (l' & -> & _).
      exists (l ++ l'). by rewrite <- app_assoc.
    + by exists l.
  - intros m Hm.
    destruct (Get_properties_marker e logger out Hc)
      as (_ & propMap & _ & _ & _ & _ & _ & _ & Hprop).
    pose proof Hm as Hm'. apply Hprop in Hm' as (Hd & Hp & ->).
    apply size_pos_nonempty in Hp. rewrite Hp in Hattrs.
    assert (Habsent : Get SFxEventPropertiesKey
              (insertDimensions dims (insertEventType e (insertCategory e []))) = None).
    { rewrite Get_insertDimensions, (firstOf_ranges _ dims _ Hdims), Hd, markers_first.
      cbn [Get]. destruct marker_keys_distinct as (_ & -> & _ & Htp & _ & _).
      destruct (String.eqb (event.EventType e) ""); cbn [Get]; rewrite ?Htp; done. }
    destruct (Insert_extends SFxEventPropertiesKey
                (ValueMap (buildPropMap e props logger).2)
                (insertDimensions dims (insertEventType e (insertCategory e []))))
      as (l' & Hins & Hone & _).
    rewrite (Hone Habsent) in Hins. rewrite Hins in Hattrs.
    apply propertiesOf_Some in Hm. rewrite Hattrs, Get_app, Habsent in Hm.
    cbn [Get] in Hm. rewrite String.eqb_refl in Hm.
    rewrite (left_id_L None (∪)) in Hm. injection Hm as Hm.
    rewrite Hattrs, last_snoc, Hm. done.
Qed.

Lemma attribute_order_witness :
  Converts samples.everyKind [] (sfxEventToPDataLogs samples.everyKind []) /\
  head (attrsOf (sfxEventToPDataLogs samples.everyKind []).1)
    = Some (SFxEventCategoryKey, ValueInt 7) /\
  exists rest,
    attrsOf (sfxEventToPDataLogs samples.everyKind []).1 =
      (SFxEventCategoryKey, ValueInt 7) :: [(SFxEventType, ValueString "alert")] ++ rest.
Proof.
  split; [apply Converts_sfxEventToPDataLogs|]. split; [by vm_compute|].
  destruct (attribute_order samples.everyKind [] (sfxEventToPDataLogs samples.everyKind [])
              (Converts_sfxEventToPDataLogs _ _)) as [Hfirst _].
  exact Hfirst.
Defined.

(** X4. The kinds of the values.  At the top level of a result a null or an
    integer value only occurs under the category marker and a nested map
    only under the properties marker; everything else is a string, and no
    boolean or double occurs.  Inside the nested map there is never a null
    value and never a further map. *)
Theorem attribute_kinds (e : event.Event) (logger : zap.Logger)
    (out : plog.Logs * zap.Logger) :
  Converts e logger out ->
  (forall k v,
     (k, v) ∈ attrsOf out.1 ->
     match v with
     | ValueEmpty | ValueInt _ => k = SFxEventCategoryKey
     | ValueMap _ => k = SFxEventPropertiesKey
     | ValueString _ => True
     | ValueBool _ | ValueDouble _ => False
     end) /\
  (forall m,
     propertiesOf out.1 = Some m ->
     forall k v,
       (k, v) ∈ m ->
       match v with
       | ValueEmpty | ValueMap _ => False
       | _ => True
       end).
Proof.
  intros Hc.
  destruct (Get_properties_marker e logger out Hc)
    as (_ & propMap & _ & _ & _ & _ & Hndp & Hgetp & Hprop).
  destruct (Converts_inv e logger out Hc)
    as (props & propMap' & attrs & _ & Hout & _ & _ & Hnd & Hget).
  split.
  - rewrite Hout. change (attrsOf _) with attrs. intros k v Hin.
    apply (Get_Some_elem k v attrs Hnd) in Hin. rewrite Hget in Hin.
    destruct (String.eqb_spec SFxEventCategoryKey k) as [Hk|_].
    { rewrite !union_Some_l in Hin. injection Hin as <-.
      by destruct (event.Category e =? 0). }
    destruct (negb (String.eqb (event.EventType e) "") && String.eqb SFxEventType k).
    { rewrite (left_id_L None (∪)), !union_Some_l in Hin. by injection Hin as <-. }
    rewrite !(left_id_L None (∪)) in Hin.
    destruct (event.Dimensions e !! k) as [d|].
    { change (ValueString <$> Some d) with (Some (ValueString d)) in Hin.
      rewrite union_Some_l in Hin. by injection Hin as <-. }
    change (ValueString <$> None) with (@None Value) in Hin.
    rewrite (left_id_L None (∪)) in Hin.
    destruct (0 <? Z.of_nat (size (event.Properties e))); [|discriminate Hin].
    destruct (String.eqb_spec SFxEventPropertiesKey k) as [Hk|_]; [|discriminate Hin].
    cbn [andb] in Hin. by injection Hin as <-.
  - intros m Hm k v Hin. apply Hprop in Hm as (_ & _ & ->).
    apply (Get_Some_elem k v propMap Hndp) in Hin. rewrite Hgetp in Hin.
    destruct (event.Properties e !! k) as [a|]; [|discriminate Hin].
    simpl in Hin. rewrite attributeOf_eq in Hin.
    destruct a; try discriminate Hin; by injection Hin as <-.
Qed.

Lemma attribute_kinds_witness :
  Converts samples.scenarioB [] (sfxEventToPDataLogs samples.scenarioB []) /\
  (SFxEventCategoryKey, ValueInt 5) ∈ attrsOf (sfxEventToPDataLogs samples.scenarioB []).1 /\
  forall k v,
    (k, v) ∈ attrsOf (sfxEventToPDataLogs samples.scenarioB []).1 ->
    match v with
    | ValueEmpty | ValueInt _ => k = SFxEventCategoryKey
    | ValueMap _ => k = SFxEventPropertiesKey
    | ValueString _ => True
    | ValueBool _ | ValueDouble _ => False
    end.
Proof.
  split; [apply Converts_sfxEventToPDataLogs|].
  split; [vm_compute; apply list_elem_of_here|].
  apply (attribute_kinds samples.scenarioB [] (sfxEventToPDataLogs samples.scenarioB [])
           (Converts_sfxEventToPDataLogs _ _)).
Defined.

(** ** Sizes *)
Section Sizes.

Lemma filter_keys_NoDup {V : Type} (f : string * V -> bool) (l : list (string * V)) :
  NoDup l.*1 -> NoDup (List.filter f l).*1.
Proof.
  induction l as [|[k v] l IH]; simpl; [done|].
  rewrite NoDup_cons. intros [Hnotin Hnd]. destruct (f (k, v)); [|by apply IH].
  simpl. apply NoDup_cons. split; [|by apply IH].
  intros Hin. apply Hnotin. apply list_elem_of_fmap in Hin as ([k' v'] & -> & Hin).
  apply list_elem_of_In, filter_In in Hin as [Hin _].
  apply list_elem_of_fmap. exists (k', v'). split; [done | by apply list_elem_of_In].
Qed.

Lemma filter_split_length {A : Type} (f : A -> bool) (l : list A) :
  (length (List.filter f l) + length (List.filter (fun x => negb (f x)) l))%nat = length l.
Proof.
  induction l as [|x l IH]; simpl; [done|]. destruct (f x); simpl; lia.
Qed.

End Sizes.

(** X5. The nested map holds one entry for each property that is not nil:
    its length and the number of nil-valued properties add up to the number
    of properties, so it never exceeds the capacity [len(event.Properties)]
    reserved for it. *)
Theorem nested_map_size (e : event.Event) (logger : zap.Logger)
    (out : plog.Logs * zap.Logger) (m : Map) :
  Converts e logger out ->
  propertiesOf out.1 = Some m ->
  (length m + length (nilProperties e))%nat = size (event.Properties e) /\
  (length m <= size (event.Properties e))%nat.
Proof.
  intros Hc Hm.
  destruct (Get_properties_marker e logger out Hc)
    as (_ & propMap & _ & _ & _ & _ & Hndp & Hgetp & Hprop).
  destruct (proj1 (Hprop m) Hm) as (_ & _ & Heq). rewrite Heq. clear Heq Hm.
  set (l := map_to_list (event.Properties e)).
  assert (Hperm : propMap.*1 ≡ₚ (List.filter (fun kv => negb (isNil kv.2)) l).*1).
  { apply NoDup_Permutation; [exact Hndp| |].
    - apply filter_keys_NoDup, NoDup_fst_map_to_list.
    - intros k. rewrite <- Get_is_Some_keys, Hgetp, list_elem_of_fmap. split.
      + intros [v Hv]. destruct (event.Properties e !! k) as [a|] eqn:Hk; [|done].
        simpl in Hv. exists (k, a). split; [done|].
        apply list_elem_of_In, filter_In. split.
        * apply list_elem_of_In. by apply elem_of_map_to_list.
        * destruct a; [discriminate Hv | done..].
      + intros ([k' a] & -> & Hin). apply list_elem_of_In, filter_In in Hin as [Hin Hnn].
        apply list_elem_of_In, elem_of_map_to_list in Hin. cbn [fst]. rewrite Hin. simpl.
        destruct a; [discriminate Hnn | by eexists..]. }
  apply Permutation_length in Hperm. rewrite !length_fmap in Hperm.
  assert (Hsum : (length propMap + length (nilProperties e))%nat
                 = size (event.Properties e)).
  { unfold nilProperties. rewrite length_map, Hperm. fold l.
    rewrite <- (length_map_to_list (event.Properties e)). fold l.
    rewrite Nat.add_comm. apply (filter_split_length (fun kv => isNil kv.2)). }
  split; [exact Hsum | lia].
Qed.

Lemma nested_map_size_witness :
  Converts samples.everyKind [] (sfxEventToPDataLogs samples.everyKind []) /\
  size (event.Properties samples.everyKind) = 13%nat /\
  exists m, propertiesOf (sfxEventToPDataLogs samples.everyKind []).1 = Some m /\
            length m = 12%nat.
Proof.
  split; [apply Converts_sfxEventToPDataLogs|]. split; [by vm_compute|].
  eexists. split; [vm_compute; reflexivity|].
  match goal with
  | |- length ?m = _ =>
      assert (Hm : propertiesOf (sfxEventToPDataLogs samples.everyKind []).1 = Some m)
        by (vm_compute; reflexivity);
      destruct (nested_map_size samples.everyKind []
                  (sfxEventToPDataLogs samples.everyKind []) m
                  (Converts_sfxEventToPDataLogs _ _) Hm) as [Hsum _]
  end.
  assert (Hnil : length (nilProperties samples.everyKind) = 1%nat) by (by vm_compute).
  assert (Hsize : size (event.Properties samples.everyKind) = 13%nat) by (by vm_compute).
  rewrite Hnil, Hsize in Hsum. lia.
Defined.

(** X6. The order in which the two loops visit the maps, and the logger
    passed in, do not show in what a result answers: any two results for the
    same event have the same timestamp, the same keys, the same value under
    every key other than the properties marker, and under that marker either
    the same value or two nested maps with the same keys that answer every
    lookup alike. *)
Theorem visit_order_not_observable (e : event.Event) (logger1 logger2 : zap.Logger)
    (out1 out2 : plog.Logs * zap.Logger) :
  Converts e logger1 out1 ->
  Converts e logger2 out2 ->
  timestampOf out1.1 = timestampOf out2.1 /\
  (attrsOf out1.1).*1 ≡ₚ (attrsOf out2.1).*1 /\
  (forall k, k <> SFxEventPropertiesKey ->
             Get k (attrsOf out1.1) = Get k (attrsOf out2.1)) /\
  (propertiesOf out1.1 = None ->
   Get SFxEventPropertiesKey (attrsOf out1.1) = Get SFxEventPropertiesKey (attrsOf out2.1)) /\
  (forall m1, propertiesOf out1.1 = Some m1 ->
     exists m2, propertiesOf out2.1 = Some m2 /\
                m1.*1 ≡ₚ m2.*1 /\
                forall k, Get k m1 = Get k m2).
Proof.
  intros Hc1 Hc2.
  destruct (Converts_keys e logger1 out1 Hc1) as [Hnd1 Hkeys1].
  destruct (Converts_keys e logger2 out2 Hc2) as [Hnd2 Hkeys2].
  destruct (Get_properties_marker e logger1 out1 Hc1)
    as (_ & pm1 & _ & _ & _ & _ & Hndp1 & Hgetp1 & Hprop1).
  destruct (Get_properties_marker e logger2 out2 Hc2)
    as (_ & pm2 & _ & _ & _ & _ & Hndp2 & Hgetp2 & Hprop2).
  assert (Hnone : forall lg out, Converts e lg out ->
            propertiesOf out.1 = None ->
            Get SFxEventPropertiesKey (attrsOf out.1)
              = ValueString <$> event.Dimensions e !! SFxEventPropertiesKey).
  { intros lg out Hc Hn.
    destruct (Get_properties_marker e lg out Hc)
      as (_ & pm & _ & _ & _ & _ & _ & _ & Hprop).
    destruct (Converts_inv e lg out Hc)
      as (props & pm' & attrs & _ & Hout & _ & _ & _ & Hget).
    assert (Hattrs : attrsOf out.1 = attrs) by (by rewrite Hout).
    rewrite Hattrs, Hget.
    destruct marker_keys_distinct as (_ & -> & _ & -> & _ & _).
    rewrite andb_false_r, !(left_id_L None (∪)), String.eqb_refl, andb_true_r.
    destruct (event.Dimensions e !! SFxEventPropertiesKey) as [d|] eqn:Hd;
      [apply union_Some_l|].
    destruct (0 <? Z.of_nat (size (event.Properties e))) eqn:Hsz; [|done].
    exfalso. apply size_pos_nonempty in Hsz.
    assert (Hs : propertiesOf out.1 = Some pm) by (by apply Hprop).
    rewrite Hs in Hn. discriminate Hn. }
  destruct (Converts_inv e logger1 out1 Hc1)
    as (props1 & pm1' & attrs1 & _ & Hout1 & _ & _ & _ & Hget1).
  destruct (Converts_inv e logger2 out2 Hc2)
    as (props2 & pm2' & attrs2 & _ & Hout2 & _ & _ & _ & Hget2).
  split; [by rewrite Hout1, Hout2|]. split; [|split; [|split]].
  - apply NoDup_Permutation; [done..|]. intros k. by rewrite Hkeys1, Hkeys2.
  - intros k Hk. rewrite Hout1, Hout2.
    change (Get k attrs1 = Get k attrs2). rewrite Hget1, Hget2.
    apply String.eqb_neq in Hk. rewrite String.eqb_sym in Hk.
    by rewrite Hk, !andb_false_r.
  - intros Hn1. rewrite (Hnone logger1 out1 Hc1 Hn1).
    destruct (propertiesOf out2.1) as [m2|] eqn:Hm2;
      [|by rewrite (Hnone logger2 out2 Hc2 Hm2)].
    destruct (proj1 (Hprop2 m2) eq_refl) as (Hd & Hp & _).
    assert (Hs : propertiesOf out1.1 = Some pm1) by (by apply Hprop1).
    rewrite Hs in Hn1. discriminate Hn1.
  - intros m1 Hm1. apply Hprop1 in Hm1 as (Hd & Hp & ->).
    exists pm2. split; [by apply Hprop2|]. split.
    + apply NoDup_Permutation; [done..|]. intros k.
      by rewrite <- !Get_is_Some_keys, Hgetp1, Hgetp2.
    + intros k. by rewrite Hgetp1, Hgetp2.
Qed.

Lemma visit_order_not_observable_witness :
  Converts more_samples.twoOfEach []
    (sfxEventToPDataLogsIn more_samples.dimsAB more_samples.propsPQ
       more_samples.twoOfEach []) /\
  Converts more_samples.twoOfEach []
    (sfxEventToPDataLogsIn more_samples.dimsBA more_samples.propsQP
       more_samples.twoOfEach []) /\
  attrsOf (sfxEventToPDataLogsIn more_samples.dimsAB more_samples.propsPQ
             more_samples.twoOfEach []).1
    <> attrsOf (sfxEventToPDataLogsIn more_samples.dimsBA more_samples.propsQP
                  more_samples.twoOfEach []).1 /\
  Get "b" (attrsOf (sfxEventToPDataLogsIn more_samples.dimsAB more_samples.propsPQ
                      more_samples.twoOfEach []).1)
    = Get "b" (attrsOf (sfxEventToPDataLogsIn more_samples.dimsBA more_samples.propsQP
                          more_samples.twoOfEach []).1).
Proof.
  assert (H1 : Converts more_samples.twoOfEach []
                 (sfxEventToPDataLogsIn more_samples.dimsAB more_samples.propsPQ
                    more_samples.twoOfEach [])).
  { exists more_samples.dimsAB, more_samples.propsPQ.
    split; [unfold ranges_over; vm_compute; reflexivity|].
    split; [unfold ranges_over; vm_compute; apply perm_swap | reflexivity]. }
  assert (H2 : Converts more_samples.twoOfEach []
                 (sfxEventToPDataLogsIn more_samples.dimsBA more_samples.propsQP
                    more_samples.twoOfEach [])).
  { exists more_samples.dimsBA, more_samples.propsQP.
    split; [unfold ranges_over; vm_compute; apply perm_swap|].
    split; [unfold ranges_over; vm_compute; reflexivity | reflexivity]. }
  split; [exact H1|]. split; [exact H2|]. split; [vm_compute; discriminate|].
  destruct (visit_order_not_observable more_samples.twoOfEach [] [] _ _ H1 H2)
    as (_ & _ & Hsame & _).
  apply Hsame. discriminate.
Defined.

(** ** The entries, exactly *)
Section Entries.

Lemma nilEntries_map (l : list (string * dyn.any)) :
  nilEntries l = nilEntry <$> List.map fst (List.filter (fun kv => isNil kv.2) l).
Proof.
  unfold nilEntries. induction l as [|[k a] l IH]; simpl; [done|].
  rewrite IH. by destruct (isNil a).
Qed.

End Entries.

(** X7. The call appends to the logger, keeping what it held, exactly the
    entries for the nil-valued properties, one each, in some order: each is
    the debug message "property with nil value will not be reported" with
    the single field [property] set to the key.  Without a nil-valued
    property the logger is left as it was. *)
Theorem diagnostics_exact (e : event.Event) (logger : zap.Logger)
    (out : plog.Logs * zap.Logger) :
  Converts e logger out ->
  (exists added,
     out.2 = logger ++ added /\ added ≡ₚ nilEntry <$> nilProperties e) /\
  (nilProperties e = [] -> out.2 = logger).
Proof.
  intros Hc. destruct (Converts_inv e logger out Hc)
    as (props & propMap & attrs & Hr & Hout & _).
  assert (Hperm : nilEntries props ≡ₚ nilEntry <$> nilProperties e).
  { unfold nilProperties. rewrite <- nilEntries_map. unfold nilEntries.
    by apply Permutation_flat_map. }
  split.
  - exists (nilEntries props). split; [by rewrite Hout | exact Hperm].
  - intros Hnil. rewrite Hnil in Hperm. apply Permutation_nil_r in Hperm.
    rewrite Hout. simpl. by rewrite Hperm, app_nil_r.
Qed.

Lemma diagnostics_exact_witness :
  Converts samples.everyKind [] (sfxEventToPDataLogs samples.everyKind []) /\
  nilProperties samples.everyKind = ["n"%string] /\
  exists added,
    (sfxEventToPDataLogs samples.everyKind []).2 = [] ++ added /\
    added ≡ₚ [zap.mkEntry zap.DebugLevel "property with nil value will not be reported"
                [zap.String_ "property" "n"]].
Proof.
  split; [apply Converts_sfxEventToPDataLogs|].
  assert (Hnil : nilProperties samples.everyKind = ["n"%string]) by (by vm_compute).
  split; [exact Hnil|].
  destruct (diagnostics_exact samples.everyKind [] (sfxEventToPDataLogs samples.everyKind [])
              (Converts_sfxEventToPDataLogs _ _)) as [(added & Hout & Hperm) _].
  exists added. split; [exact Hout|]. by rewrite Hnil in Hperm.
Defined.

(** ** The timestamp as bits *)
Section TimestampBits.

Lemma wrap_signed_range (z : Z) : GoInt.in_signed 64 (GoInt.int64 z).
Proof.
  unfold GoInt.in_signed, GoInt.int64, GoInt.wrap_signed.
  change (2 ^ (64 - 1)) with 9223372036854775808.
  change (2 ^ 64) with 18446744073709551616.
  pose proof (Z.mod_pos_bound (z + 9223372036854775808) 18446744073709551616). lia.
Qed.

Lemma unixNanoOf_range (t : time.Time) : GoInt.in_signed 64 (unixNanoOf t).
Proof.
  unfold unixNanoOf. destruct (negb (time.IsZero t)).
  - apply wrap_signed_range.
  - unfold GoInt.in_signed. change (2 ^ (64 - 1)) with 9223372036854775808. lia.
Qed.

Lemma Timestamp_of_int64 (z : Z) :
  GoInt.in_signed 64 z ->
  Timestamp z = (if z <? 0 then z + 2 ^ 64 else z) /\
  0 <= Timestamp z < 2 ^ 64 /\
  GoInt.int64 (Timestamp z) = z.
Proof.
  unfold GoInt.in_signed, Timestamp, GoInt.uint64, GoInt.wrap_unsigned,
    GoInt.int64, GoInt.wrap_signed.
  change (2 ^ (64 - 1)) with 9223372036854775808.
  change (2 ^ 64) with 18446744073709551616.
  intros Hz.
  assert (Hmod : z mod 18446744073709551616
                 = if z <? 0 then z + 18446744073709551616 else z).
  { destruct (Z.ltb_spec z 0).
    - symmetry. apply (Z.mod_unique _ _ (-1)); lia.
    - apply Z.mod_small. lia. }
  split; [exact Hmod|]. split; [apply Z.mod_pos_bound; lia|].
  rewrite Zplus_mod_idemp_l, Z.mod_small; lia.
Qed.

End TimestampBits.

(** X8. The timestamp of a result is the [uint64] holding the bits of the
    [int64] count of nanoseconds: it lies in [0, 2^64), converting it back to
    [int64] gives the count again, and a negative count (an instant before
    the Unix epoch) is stored as the count plus [2^64]. *)
Theorem timestamp_bits (e : event.Event) (logger : zap.Logger)
    (out : plog.Logs * zap.Logger) :
  Converts e logger out ->
  exists ts,
    timestampOf out.1 = Some ts /\
    0 <= ts < 2 ^ 64 /\
    GoInt.int64 ts = unixNanoOf (event.Timestamp e) /\
    ts = if unixNanoOf (event.Timestamp e) <? 0
         then unixNanoOf (event.Timestamp e) + 2 ^ 64
         else unixNanoOf (event.Timestamp e).
Proof.
  intros Hc. destruct (Converts_inv e logger out Hc)
    as (props & propMap & attrs & _ & -> & _).
  exists (Timestamp (unixNanoOf (event.Timestamp e))). split; [reflexivity|].
  destruct (Timestamp_of_int64 _ (unixNanoOf_range (event.Timestamp e)))
    as (Hval & Hrange & Hback).
  done.
Qed.

Lemma timestamp_bits_witness :
  Converts more_samples.beforeEpoch [] (sfxEventToPDataLogs more_samples.beforeEpoch []) /\
  unixNanoOf (event.Timestamp more_samples.beforeEpoch) = -1000000000 /\
  timestampOf (sfxEventToPDataLogs more_samples.beforeEpoch []).1
    = Some (2 ^ 64 - 1000000000).
Proof.
  split; [apply Converts_sfxEventToPDataLogs|].
  assert (Hn : unixNanoOf (event.Timestamp more_samples.beforeEpoch) = -1000000000)
    by (by vm_compute).
  split; [exact Hn|].
  destruct (timestamp_bits more_samples.beforeEpoch []
              (sfxEventToPDataLogs more_samples.beforeEpoch [])
              (Converts_sfxEventToPDataLogs _ _)) as (ts & Hts & _ & _ & Hval).
  rewrite Hts, Hval, Hn. reflexivity.
Defined.

(** ** Widening is one-to-one *)
Section Widening.

Lemma float64_of_float32_inj (f g : spec_float) :
  GoFloat.is_float32 f ->
  GoFloat.is_float32 g ->
  GoFloat.float64_of_float32 f = GoFloat.float64_of_float32 g ->
  f = g.
Proof.
  intros Hf Hg.
  destruct f as [s|s| |s m e]; destruct g as [s'|s'| |s' m' e']; simpl;
    try done;
    try (destruct (binary_round_float32 _ _ _ Hf) as (d & _ & -> & _); done);
    try (destruct (binary_round_float32 _ _ _ Hg) as (d & _ & -> & _); done).
  destruct (binary_round_float32 s m e Hf) as (d & Hd & -> & _).
  destruct (binary_round_float32 s' m' e' Hg) as (d' & Hd' & -> & _).
  intros [= -> Hm He].
  pose proof (f_equal Z.pos Hm) as Hmz. rewrite !iter_xO_value in Hmz.
  unfold GoFloat.is_float32 in Hf, Hg. simpl in Hf, Hg.
  unfold bounded, canonical_mantissa, fexp, emin in Hf, Hg.
  apply andb_prop in Hf as [Hf _]. apply andb_prop in Hg as [Hg _].
  apply Z.eqb_eq in Hf, Hg.
  assert (e = e') by lia. subst e'.
  assert (Z.pos d = Z.pos d') as Hdd by lia. rewrite <- Hdd in Hmz.
  assert (0 < 2 ^ Z.pos d) by (apply Z.pow_pos_nonneg; lia).
  assert (Z.pos m = Z.pos m') as Hmm by nia.
  by injection Hmm as ->.
Qed.

End Widening.

(** X9. Widening a [float32] property value to [float64] loses nothing:
    two different [float32] values never get the same double attribute. *)
Theorem float32_widening_lossless (f g : spec_float) :
  GoFloat.is_float32 f ->
  GoFloat.is_float32 g ->
  f <> g ->
  attributeOf (dyn.Float32 f) <> attributeOf (dyn.Float32 g).
Proof.
  intros Hf Hg Hne Heq. apply Hne. rewrite !attributeOf_eq in Heq.
  injection Heq as Heq. by apply float64_of_float32_inj.
Qed.

Lemma float32_widening_lossless_witness :
  GoFloat.is_float32 more_samples.tiny32 /\
  GoFloat.is_float32 samples.one_and_a_half32 /\
  more_samples.tiny32 <> samples.one_and_a_half32 /\
  attributeOf (dyn.Float32 more_samples.tiny32)
    = Some (ValueDouble (S754_finite false 4503599627370496 (-201))) /\
  attributeOf (dyn.Float32 more_samples.tiny32)
    <> attributeOf (dyn.Float32 samples.one_and_a_half32).
Proof.
  split; [reflexivity|]. split; [reflexivity|]. split; [discriminate|].
  split; [by vm_compute|].
  apply (float32_widening_lossless more_samples.tiny32 samples.one_and_a_half32);
    [reflexivity | reflexivity | discriminate].
Defined.

(** X10. Under every key that is none of the three marker keys, a result
    holds exactly the dimension of that key, as a string attribute, and
    nothing when there is no such dimension: the dimensions with such keys
    can be read back from the record. *)
Theorem dimensions_read_back (e : event.Event) (logger : zap.Logger)
    (out : plog.Logs * zap.Logger) (k : string) :
  Converts e logger out ->
  k <> SFxEventCategoryKey ->
  k <> SFxEventType ->
  k <> SFxEventPropertiesKey ->
  Get k (attrsOf out.1) = ValueString <$> event.Dimensions e !! k.
Proof.
  intros Hc Hk1 Hk2 Hk3. destruct (Converts_inv e logger out Hc)
    as (props & propMap & attrs & _ & -> & _ & _ & _ & Hget).
  change (attrsOf _) with attrs. rewrite Hget.
  apply String.eqb_neq in Hk1, Hk2, Hk3.
  rewrite String.eqb_sym in Hk1. rewrite String.eqb_sym in Hk2.
  rewrite String.eqb_sym in Hk3. rewrite Hk1, Hk2, Hk3, !andb_false_r.
  by option_unions.
Qed.

Lemma dimensions_read_back_witness :
  Converts samples.scenarioA [] (sfxEventToPDataLogs samples.scenarioA []) /\
  Get "host" (attrsOf (sfxEventToPDataLogs samples.scenarioA []).1)
    = Some (ValueString "a") /\
  Get "port" (attrsOf (sfxEventToPDataLogs samples.scenarioA []).1) = None.
Proof.
  split; [apply Converts_sfxEventToPDataLogs|]. split.
  - rewrite (dimensions_read_back samples.scenarioA []
               (sfxEventToPDataLogs samples.scenarioA []) "host"
               (Converts_sfxEventToPDataLogs _ _)); by vm_compute.
  - by vm_compute.
Defined.

(** ** The count of nanoseconds, modulo [2^64] *)
Section Modular.

Lemma int64_mod (z : Z) : GoInt.int64 z mod 2 ^ 64 = z mod 2 ^ 64.
Proof.
  unfold GoInt.int64, GoInt.wrap_signed.
  change (2 ^ (64 - 1)) with 9223372036854775808.
  change (2 ^ 64) with 18446744073709551616.
  rewrite Zminus_mod_idemp_l. f_equal. lia.
Qed.

Lemma UnixNano_mod (t : time.Time) :
  Timestamp (time.UnixNano t) =
    ((time.sec t - time.unixToInternal) * 1000000000 + time.nsec t) mod 2 ^ 64.
Proof.
  unfold Timestamp, GoInt.uint64, GoInt.wrap_unsigned, time.UnixNano, time.unixSec,
    time.internalToUnix.
  rewrite int64_mod, Z.add_opp_r.
  rewrite <- Zplus_mod_idemp_l, <- Zmult_mod_idemp_l, int64_mod.
  by rewrite Zmult_mod_idemp_l, Zplus_mod_idemp_l.
Qed.

End Modular.

(** X11. For an event whose timestamp is not the zero value, the timestamp
    of a result is the exact count of nanoseconds between the Unix epoch and
    the instant, reduced modulo [2^64], whatever the instant: the [int64]
    arithmetic of [UnixNano] wraps around and never fails. *)
Theorem timestamp_modulo (e : event.Event) (logger : zap.Logger)
    (out : plog.Logs * zap.Logger) :
  Converts e logger out ->
  time.IsZero (event.Timestamp e) = false ->
  timestampOf out.1 =
    Some (((time.sec (event.Timestamp e) - time.unixToInternal) * 1000000000
           + time.nsec (event.Timestamp e)) mod 2 ^ 64).
Proof.
  intros Hc Hz. destruct (Converts_inv e logger out Hc)
    as (props & propMap & attrs & _ & -> & _).
  change (timestampOf _) with (Some (Timestamp (unixNanoOf (event.Timestamp e)))).
  unfold unixNanoOf. rewrite Hz. cbn [negb]. by rewrite UnixNano_mod.
Qed.

Lemma timestamp_modulo_witness :
  Converts more_samples.beforeEpoch [] (sfxEventToPDataLogs more_samples.beforeEpoch []) /\
  time.IsZero (event.Timestamp more_samples.beforeEpoch) = false /\
  timestampOf (sfxEventToPDataLogs more_samples.beforeEpoch []).1
    = Some ((-1000000000) mod 2 ^ 64).
Proof.
  split; [apply Converts_sfxEventToPDataLogs|]. split; [reflexivity|].
  rewrite (timestamp_modulo more_samples.beforeEpoch []
             (sfxEventToPDataLogs more_samples.beforeEpoch [])
             (Converts_sfxEventToPDataLogs _ _)); reflexivity.
Defined.

(** X12. The properties do not interfere with one another: in the nested
    map of a result the entry under a key is what the loop body, run alone on
    the value stored under that key, writes into an empty map, and a key
    that is not a property has no entry. *)
Theorem nested_map_pointwise (e : event.Event) (logger : zap.Logger)
    (out : plog.Logs * zap.Logger) (m : Map) :
  Converts e logger out ->
  propertiesOf out.1 = Some m ->
  NoDup m.*1 /\
  forall k,
    Get k m =
      match event.Properties e !! k with
      | Some value => Get k (insertProperty ([], []) k value).2
      | None => None
      end.
Proof.
  intros Hc Hm.
  destruct (Get_properties_marker e logger out Hc)
    as (_ & propMap & _ & _ & _ & _ & Hndp & Hgetp & Hprop).
  destruct (proj1 (Hprop m) Hm) as (_ & _ & Heq). rewrite Heq. clear Heq Hm.
  split; [exact Hndp|]. intros k. rewrite Hgetp.
  destruct (event.Properties e !! k) as [a|]; [|done].
  change (Some a ≫= attributeOf) with (attributeOf a).
  rewrite insertProperty_eq. cbn [snd]. unfold Insert. cbn [Get app].
  destruct (attributeOf a); cbn [Get]; [by rewrite String.eqb_refl | done].
Qed.

Lemma nested_map_pointwise_witness :
  Converts samples.scenarioB [] (sfxEventToPDataLogs samples.scenarioB []) /\
  exists m,
    propertiesOf (sfxEventToPDataLogs samples.scenarioB []).1 = Some m /\
    Get "p1" m = Some (ValueDouble samples.three_and_a_half) /\
    Get "p2" m = None /\ Get "p3" m = None.
Proof.
  split; [apply Converts_sfxEventToPDataLogs|].
  eexists. split; [vm_compute; reflexivity|].
  match goal with
  | |- Get _ ?m = _ /\ _ =>
      assert (Hm : propertiesOf (sfxEventToPDataLogs samples.scenarioB []).1 = Some m)
        by (vm_compute; reflexivity);
      destruct (nested_map_pointwise samples.scenarioB []
                  (sfxEventToPDataLogs samples.scenarioB []) m
                  (Converts_sfxEventToPDataLogs _ _) Hm) as [_ Hpoint]
  end.
  split; [|split]; rewrite Hpoint; by vm_compute.
Defined.

(** ** Nil pointers *)
Section NilPointers.

Lemma rangeProperties_nil_logger (props : list (string * dyn.any)) (lg : zap.Logger)
    (propMap : Map) :
  converter_ptr.rangeProperties props (None, propMap) =
    if existsb (fun kv => isNil kv.2) props
    then runtime.Panics runtime.NilDereference
    else runtime.Returns
           (None,
            (fold_left (fun st kv => insertProperty st kv.1 kv.2) props (lg, propMap)).2).
Proof.
  revert lg propMap. induction props as [|[k a] props IH]; intros lg propMap.
  - reflexivity.
  - cbn [converter_ptr.rangeProperties fold_left existsb fst snd].
    destruct a; cbn [isNil orb]; try reflexivity;
      cbn [converter_ptr.insertProperty insertProperty mbind outcome_bind runtime.bind];
      apply IH.
Qed.

Lemma existsb_isNil (e : event.Event) (props : list (string * dyn.any)) :
  ranges_over props (event.Properties e) ->
  existsb (fun kv => isNil kv.2) props = true <->
  exists k, event.Properties e !! k = Some dyn.Nil.
Proof.
  intros Hr. rewrite existsb_exists. split.
  - intros ([k a] & Hin & Hnil). destruct a; try discriminate Hnil.
    exists k. apply (ranges_over_elem props _ k dyn.Nil Hr). by apply list_elem_of_In.
  - intros [k Hk]. exists (k, dyn.Nil). split; [|done].
    apply list_elem_of_In. by apply (ranges_over_elem props _ k dyn.Nil Hr).
Qed.

End NilPointers.

(** X13. The two ways the call can panic.  With a nil event pointer it
    panics at once.  With an event and a nil logger it panics exactly when
    some property is nil-valued (the loop then calls [Debug] on the nil
    logger); when no property is nil-valued it returns the same container as
    with a logger, the logger never being used. *)
Theorem nil_pointers (e : event.Event) (logger : option zap.Logger)
    (dims : list (string * string)) (props : list (string * dyn.any)) :
  ranges_over props (event.Properties e) ->
  converter_ptr.sfxEventToPDataLogs dims props None logger
    = runtime.Panics runtime.NilDereference /\
  (converter_ptr.sfxEventToPDataLogs dims props (Some e) None
     = runtime.Panics runtime.NilDereference <->
   exists k, event.Properties e !! k = Some dyn.Nil) /\
  ((forall k, event.Properties e !! k <> Some dyn.Nil) ->
   forall lg,
     converter_ptr.sfxEventToPDataLogs dims props (Some e) None
       = runtime.Returns ((sfxEventToPDataLogsIn dims props e lg).1, None)).
Proof.
  intros Hr. split; [reflexivity|].
  assert (Hrun : forall lg,
    converter_ptr.sfxEventToPDataLogs dims props (Some e) None =
      if existsb (fun kv => isNil kv.2) props
      then runtime.Panics runtime.NilDereference
      else runtime.Returns ((sfxEventToPDataLogsIn dims props e lg).1, None)).
  { intros lg.
    unfold converter_ptr.sfxEventToPDataLogs, sfxEventToPDataLogsIn,
      converter_ptr.insertProperties, insertProperties,
      converter_ptr.buildPropMap, buildPropMap.
    cbn [newLogs runtime.deref mbind outcome_bind runtime.bind].
    destruct (0 <? Z.of_nat (size (event.Properties e))) eqn:Hsz.
    - rewrite (rangeProperties_nil_logger props lg).
      destruct (existsb _ props); [reflexivity|].
      cbn [mbind outcome_bind runtime.bind].
      destruct (fold_left _ props _) as [lg' propMap]. reflexivity.
    - assert (props = []) as ->.
      { apply length_zero_iff_nil. rewrite (ranges_over_length _ _ Hr).
        apply Z.ltb_ge in Hsz. lia. }
      reflexivity. }
  split.
  - rewrite <- (existsb_isNil e props Hr), (Hrun []).
    destruct (existsb _ props); split; try done.
  - intros Hnone lg. rewrite (Hrun lg).
    destruct (existsb _ props) eqn:Hex; [|reflexivity].
    apply (existsb_isNil e props Hr) in Hex as [k Hk]. by destruct (Hnone k).
Qed.

Lemma nil_pointers_witness :
  ranges_over (map_to_list (event.Properties samples.scenarioB))
    (event.Properties samples.scenarioB) /\
  event.Properties samples.scenarioB !! "p2"%string = Some dyn.Nil /\
  converter_ptr.sfxEventToPDataLogs [] (map_to_list (event.Properties samples.scenarioB))
    (Some samples.scenarioB) None
    = runtime.Panics runtime.NilDereference.
Proof.
  split; [apply ranges_over_map_to_list|].
  assert (Hk : event.Properties samples.scenarioB !! "p2"%string = Some dyn.Nil)
    by (by vm_compute).
  split; [exact Hk|].
  apply (nil_pointers samples.scenarioB None []
           (map_to_list (event.Properties samples.scenarioB))
           (ranges_over_map_to_list _)).
  by exists "p2"%string.
Defined.
